(** * Guestbook backend: the two [/api/messages] handlers of [src/backend/server.js]

    The GET and POST handlers of the Express server are embedded as programs
    of a small state-and-exception monad over a [World] that holds what the
    handlers read and write: the [dbPool] handle, the rows of the [messages]
    table with its AUTO_INCREMENT counter, the [redisClient] handle, the
    Redis keys with their expiry times, and a journal of the external calls
    and console lines in the order they were issued.

    What the outside decides during one request is gathered in an [Env]
    record: whether each awaited call rejects and with which error, and the
    clocks of the two servers.  A statement or command that does not reject
    has its documented effect: INSERT stores the given text unchanged under
    the next AUTO_INCREMENT value with the current timestamp, SETEX sets the
    key with an expiry, DEL removes it, GET reads a key that has not
    expired.  Every awaited call settles: a request one of whose calls
    stays pending for ever gets no response and is outside the model.  A
    handler is followed from its first line to its response; where several
    requests are run ([serve]) they are taken one after the other; such
    runs serve for properties of the rows and of the handles that every
    single statement of a handler preserves, and for examples.

    [JSON.parse] and [JSON.stringify] are built-ins of the JavaScript
    runtime; the handlers take them as parameters.

    The start-up of the process ([initializeMySQL], [initializeRedis],
    [startServer]) runs in a second monad whose computations may also end in
    [process.exit], over a [Host] that adds the environment variables and
    the existence of the database and of the table to the world.  The page
    script ([fetchMessages], [displayMessages], the submit listener) is a
    function of the page and of what its requests settle to. *)

From Stdlib Require Import ZArith NArith List Ascii String Lia.
From Stdlib Require Import Sorting.Sorted Sorting.Permutation.
From Stdlib Require Import Floats.SpecFloat.
From stdpp Require Import gmap.

Open Scope Z_scope.

(** ** JavaScript strings *)

(** A JavaScript string is a sequence of UTF-16 code units. *)
Definition code_unit := N.
Definition jsstring := list code_unit.

(** Source literals are ASCII: one code unit per character. *)
Fixpoint js (s : string) : jsstring :=
  match s with
  | EmptyString => []
  | String c s' => N_of_ascii c :: js s'
  end.
Arguments js : simpl never.

(** ECMAScript WhiteSpace and LineTerminator code points, the set that
    [String.prototype.trim] strips: TAB, LF, VT, FF, CR, SP, NBSP, U+1680,
    U+2000..U+200A, U+2028, U+2029, U+202F, U+205F, U+3000 and U+FEFF. *)
Definition is_white_space (c : code_unit) : bool :=
  match c with
  | 9 | 10 | 11 | 12 | 13 | 32 | 160 | 5760
  | 8232 | 8233 | 8239 | 8287 | 12288 | 65279 => true
  | _ => (8192 <=? c) && (c <=? 8202)
  end%N.

Fixpoint trimStart (s : jsstring) : jsstring :=
  match s with
  | [] => []
  | c :: s' => if is_white_space c then trimStart s' else s
  end.

Definition trimEnd (s : jsstring) : jsstring := rev (trimStart (rev s)).

(** [String.prototype.trim] *)
Definition trim (s : jsstring) : jsstring := trimEnd (trimStart s).

Definition is_empty (s : jsstring) : bool :=
  match s with [] => true | _ :: _ => false end.

(** ** JSON values, as [express.json()] hands them to a handler *)

#[warnings="-register-all"]
Inductive Json : Type :=
| JNull
| JBool (b : bool)
| JNum (x : spec_float)
| JStr (s : jsstring)
| JArr (items : list Json)
| JObj (props : list (jsstring * Json)).

(** A value that may be [undefined]. *)
Definition JsValue := option Json.

Fixpoint get_prop (key : jsstring) (props : list (jsstring * Json)) : JsValue :=
  match props with
  | [] => None
  | (k, v) :: rest => if decide (k = key) then Some v else get_prop key rest
  end.

(** ToBoolean *)
Definition truthy (v : JsValue) : bool :=
  match v with
  | None | Some JNull => false
  | Some (JBool b) => b
  | Some (JNum x) =>
      match x with
      | S754_zero _ | S754_nan => false
      | S754_infinity _ | S754_finite _ _ _ => true
      end
  | Some (JStr s) => negb (is_empty s)
  | Some (JArr _) | Some (JObj _) => true
  end.

(** ** Errors and completions *)

(** What a JavaScript [throw] or a rejected promise carries.  [Unreachable]
    is a driver error raised because the server could not be reached;
    [OperationFailed] is an error reply of a server that was reached. *)
Inductive Error : Type :=
| TypeError
| SyntaxError
| Unreachable
| OperationFailed.

Inductive Completion (A : Type) : Type :=
| Normal (a : A)
| Throw (e : Error).
Arguments Normal {A} a.
Arguments Throw {A} e.

(** ** The messages table and the store *)

(** A row of [messages(id INT AUTO_INCREMENT PRIMARY KEY, content TEXT NOT
    NULL, created_at TIMESTAMP DEFAULT CURRENT_TIMESTAMP)]. *)
Record Message : Type := mkMessage {
  id : Z;
  content : jsstring;
  created_at : Z
}.

(** [ORDER BY created_at DESC]: a stable insertion sort of the rows taken in
    table order. *)
Fixpoint insert_desc (m : Message) (l : list Message) : list Message :=
  match l with
  | [] => [m]
  | x :: l' =>
      if created_at m <? created_at x then x :: insert_desc m l' else m :: l
  end.

Definition order_by_created_at_desc (rows : list Message) : list Message :=
  foldr insert_desc [] rows.

(** [WHERE id = ?] *)
Definition where_id (i : Z) (rows : list Message) : list Message :=
  List.filter (fun m => id m =? i) rows.

(** ** The world of a running server *)

Inductive Event : Type :=
| redis_GET (key : jsstring)
| redis_SETEX (key : jsstring) (seconds : Z) (value : jsstring)
| redis_DEL (key : jsstring)
| mysql_SELECT_all
| mysql_INSERT (content : jsstring)
| mysql_SELECT_id (i : Z)
| console_log (line : string)
| console_error (line : string) (e : Error).

Record World : Type := mkWorld {
  (** the global [dbPool] is set *)
  dbPool : bool;
  (** rows of the table, in insertion order *)
  messages : list Message;
  (** next AUTO_INCREMENT value *)
  auto_increment : Z;
  (** the global [redisClient]: [None] when undefined, else its [isOpen] *)
  redisClient : option bool;
  (** Redis keys: value and the time at which the key expires *)
  redis : gmap jsstring (jsstring * Z);
  (** external calls and console lines, oldest first *)
  journal : list Event
}.

(** What the outside decides while one request is handled. *)
Record Env : Type := mkEnv {
  get_rejects : option Error;
  setEx_rejects : option Error;
  del_rejects : option Error;
  select_all_rejects : option Error;
  insert_rejects : option Error;
  select_id_rejects : option Error;
  (** the clock of the Redis server *)
  redis_time : Z;
  (** the clock of the MySQL server *)
  CURRENT_TIMESTAMP : Z
}.

(** ** Asynchronous computations: state passing with exceptions *)

Definition Async (A : Type) : Type := World -> Completion A * World.

Definition ret {A} (a : A) : Async A := fun w => (Normal a, w).

Definition throw {A} (e : Error) : Async A := fun w => (Throw e, w).

Definition bind {A B} (m : Async A) (k : A -> Async B) : Async B :=
  fun w =>
    match m w with
    | (Normal a, w') => k a w'
    | (Throw e, w') => (Throw e, w')
    end.

(** [try { m } catch (error) { h error }] *)
Definition try_catch {A} (m : Async A) (h : Error -> Async A) : Async A :=
  fun w =>
    match m w with
    | (Normal a, w') => (Normal a, w')
    | (Throw e, w') => h e w'
    end.

Declare Scope async_scope.
Delimit Scope async_scope with async.
Notation "x <- m ;; k" := (bind m (fun x => k))
  (at level 20, m at level 99, k at level 200, only parsing)
  : async_scope.
Notation "m ;; k" := (bind m (fun _ => k))
  (at level 100, k at level 200, only parsing, right associativity) : async_scope.
Open Scope async_scope.

(** The world with further entries in its journal. *)
Definition noting (w : World) (entries : list Event) : World :=
  mkWorld (dbPool w) (messages w) (auto_increment w) (redisClient w)
          (redis w) (journal w ++ entries).

Definition emit (e : Event) : Async unit := fun w => (Normal tt, noting w [e]).

Definition read {A} (f : World -> A) : Async A := fun w => (Normal (f w), w).

(** An awaited call settles: it resolves or it rejects.  A call that never
    settles leaves its request without response; no result below speaks of
    such a request. *)
Definition settle {A} (rejects : option Error) (a : A) : Async A :=
  match rejects with
  | Some e => throw e
  | None => ret a
  end.

(** *** Console *)

Definition log (line : string) : Async unit := emit (console_log line).

Definition log_error (line : string) (e : Error) : Async unit :=
  emit (console_error line e).

(** *** Redis commands *)

Definition REDIS_MESSAGES_KEY : jsstring := js "guestbook:messages".

(** [redisClient && redisClient.isOpen] *)
Definition client_open (w : World) : bool :=
  match redisClient w with
  | Some open => open
  | None => false
  end.

Definition redis_available : Async bool := read client_open.

(** The value of a key that has not expired; [None] is JavaScript [null]. *)
Definition live (now : Z) (store : gmap jsstring (jsstring * Z)) (key : jsstring)
  : option jsstring :=
  match store !! key with
  | Some (v, expires) => if now <? expires then Some v else None
  | None => None
  end.

Definition set_redis (store : gmap jsstring (jsstring * Z)) : Async unit :=
  fun w =>
    (Normal tt,
     mkWorld (dbPool w) (messages w) (auto_increment w) (redisClient w)
             store (journal w)).

Definition redis_get (env : Env) (key : jsstring) : Async (option jsstring) :=
  emit (redis_GET key);;
  _ <- settle (get_rejects env) tt;;
  read (fun w => live (redis_time env) (redis w) key).

Definition redis_setEx (env : Env) (key : jsstring) (seconds : Z) (value : jsstring)
  : Async unit :=
  emit (redis_SETEX key seconds value);;
  _ <- settle (setEx_rejects env) tt;;
  store <- read redis;;
  set_redis (<[key := (value, redis_time env + seconds)]> store).

Definition redis_del (env : Env) (key : jsstring) : Async unit :=
  emit (redis_DEL key);;
  _ <- settle (del_rejects env) tt;;
  store <- read redis;;
  set_redis (delete key store).

(** *** MySQL statements *)

Definition set_table (rows : list Message) (next : Z) : Async unit :=
  fun w =>
    (Normal tt,
     mkWorld (dbPool w) rows next (redisClient w) (redis w) (journal w)).

(** [SELECT id, content, created_at FROM messages ORDER BY created_at DESC] *)
Definition mysql_select_all (env : Env) : Async (list Message) :=
  emit mysql_SELECT_all;;
  _ <- settle (select_all_rejects env) tt;;
  read (fun w => order_by_created_at_desc (messages w)).

(** [INSERT INTO messages (content) VALUES (?)]; the result is [insertId]. *)
Definition mysql_insert (env : Env) (c : jsstring) : Async Z :=
  emit (mysql_INSERT c);;
  _ <- settle (insert_rejects env) tt;;
  rows <- read messages;;
  next <- read auto_increment;;
  set_table (rows ++ [mkMessage next c (CURRENT_TIMESTAMP env)]) (next + 1);;
  ret next.

(** [SELECT id, content, created_at FROM messages WHERE id = ?] *)
Definition mysql_select_id (env : Env) (i : Z) : Async (list Message) :=
  emit (mysql_SELECT_id i);;
  _ <- settle (select_id_rejects env) tt;;
  read (fun w => where_id i (messages w)).

(** ** HTTP responses *)

Inductive Body : Type :=
| ErrorBody (error : string)          (** [{ error: ... }] *)
| JsonBody (value : Json)             (** a parsed JSON value *)
| RowsBody (rows : list Message)      (** an array of rows *)
| RowBody (row : option Message).     (** one row, or [undefined] *)

Record Response : Type := mkResponse {
  status : Z;
  body : Body
}.

(** [res.json(b)] with the default status. *)
Definition res_json (b : Body) : Response := mkResponse 200 b.

(** [res.status(code).json(b)] *)
Definition res_status_json (code : Z) (b : Body) : Response := mkResponse code b.

(** ** The handlers *)

(** [const { content } = req.body]: reading a property of [null] throws; an
    object yields the property or [undefined]; arrays and primitives have no
    such property. *)
Definition destructure_content (req_body : Json) : Async JsValue :=
  match req_body with
  | JNull => throw TypeError
  | JObj props => ret (get_prop (js "content") props)
  | _ => ret None
  end.

(** [content.trim()]: only a string has the method; a JSON object can hold no
    function, so calling its [trim] property (present or not) throws too. *)
Definition call_trim (content : JsValue) : Async jsstring :=
  match content with
  | Some (JStr s) => ret (trim s)
  | _ => throw TypeError
  end.

(** [(await dbPool.query(...))[0][0]] *)
Definition first_row (rows : list Message) : option Message := head rows.

Section Handlers.

(** [JSON.parse] ([None]: it throws SyntaxError) and [JSON.stringify] on
    the array of rows. *)
Variable JSON_parse : jsstring -> option Json.
Variable JSON_stringify : list Message -> jsstring.

Definition parse (text : jsstring) : Async Json :=
  match JSON_parse text with
  | Some v => ret v
  | None => throw SyntaxError
  end.

(** Lines 136-144: the cache lookup; [Some r] is the early [return]. *)
Definition cache_lookup (env : Env) : Async (option Response) :=
  available <- redis_available;;
  if available then
    cachedMessages <- redis_get env REDIS_MESSAGES_KEY;;
    match cachedMessages with
    | Some ((_ :: _) as text) =>
        log "Serving messages from Redis cache";;
        value <- parse text;;
        ret (Some (res_json (JsonBody value)))
    | _ => ret None
    end
  else
    log "Redis client not available or not open, skipping cache lookup.";;
    ret None.

(** Lines 145-155: the read from the table and the cache fill. *)
Definition fetch_from_mysql (env : Env) : Async Response :=
  pool <- read dbPool;;
  if negb pool then
    ret (res_status_json 503 (ErrorBody "Database service not available."))
  else
    log "Fetching messages from MySQL";;
    rows <- mysql_select_all env;;
    available <- redis_available;;
    (if available then
       redis_setEx env REDIS_MESSAGES_KEY 3600 (JSON_stringify rows);;
       log "Messages cached in Redis"
     else ret tt);;
    ret (res_json (RowsBody rows)).

(** [app.get('/api/messages', ...)] *)
Definition get_api_messages (env : Env) : Async Response :=
  try_catch
    (served <- cache_lookup env;;
     match served with
     | Some response => ret response
     | None => fetch_from_mysql env
     end)
    (fun error =>
       log_error "Error fetching messages:" error;;
       ret (res_status_json 500 (ErrorBody "Failed to retrieve messages"))).

End Handlers.

(** Line 165: [!content || content.trim() === ''], evaluated outside the
    [try] block. *)
Definition content_is_blank (content : JsValue) : Async bool :=
  if negb (truthy content) then ret true
  else trimmed <- call_trim content;; ret (is_empty trimmed).

(** Lines 179-184: the invalidation. *)
Definition invalidate (env : Env) : Async unit :=
  available <- redis_available;;
  if available then
    redis_del env REDIS_MESSAGES_KEY;;
    log "Redis cache for messages invalidated."
  else
    log "Redis client not available or not open, skipping cache invalidation.".

(** Lines 170-187: the body of the [try] block. *)
Definition insert_and_reread (content : JsValue) (env : Env) : Async Response :=
  pool <- read dbPool;;
  if negb pool then
    ret (res_status_json 503 (ErrorBody "Database service not available."))
  else
    trimmed <- call_trim content;;
    newMessageId <- mysql_insert env trimmed;;
    invalidate env;;
    newMessages <- mysql_select_id env newMessageId;;
    ret (res_status_json 201 (RowBody (first_row newMessages))).

(** [app.post('/api/messages', ...)] *)
Definition post_api_messages (req_body : Json) (env : Env) : Async Response :=
  content <- destructure_content req_body;;
  blank <- content_is_blank content;;
  if blank then
    ret (res_status_json 400 (ErrorBody "Message content cannot be empty"))
  else
    try_catch
      (insert_and_reread content env)
      (fun error =>
         log_error "Error posting message:" error;;
         ret (res_status_json 500 (ErrorBody "Failed to post message"))).

(** ** Requests and runs of the server *)

Inductive Request : Type :=
| GET_api_messages
| POST_api_messages (req_body : Json).

Section Server.

Variable JSON_parse : jsstring -> option Json.
Variable JSON_stringify : list Message -> jsstring.

Definition handle (rq : Request) (env : Env) : Async Response :=
  match rq with
  | GET_api_messages => get_api_messages JSON_parse JSON_stringify env
  | POST_api_messages req_body => post_api_messages req_body env
  end.

(** The world after a sequence of requests, each handled to completion
    before the next one starts.  The server itself may start a handler while
    another one is suspended at an [await]; runs of [serve] are therefore
    used only for properties of the rows and of the handles that every
    single statement of a handler preserves, and for examples. *)
Fixpoint serve (rqs : list (Request * Env)) (w : World) : World :=
  match rqs with
  | [] => w
  | (rq, env) :: rest => serve rest (snd (handle rq env w))
  end.

End Server.

(** What a handler added to the journal. *)
Definition issued (before after : World) : list Event :=
  drop (length (journal before)) (journal after).

Definition store_event (e : Event) : bool :=
  match e with
  | mysql_SELECT_all | mysql_INSERT _ | mysql_SELECT_id _ => true
  | _ => false
  end.

Definition redis_event (e : Event) : bool :=
  match e with
  | redis_GET _ | redis_SETEX _ _ _ | redis_DEL _ => true
  | _ => false
  end.

(** The value the cache lookup of this request would read. *)
Definition cached (env : Env) (w : World) : option jsstring :=
  live (redis_time env) (redis w) REDIS_MESSAGES_KEY.

(** [if (cachedMessages)] fails: the key is absent or expired ([null]) or
    holds the empty string. *)
Definition cache_miss (env : Env) (w : World) : Prop :=
  cached env w = None \/ cached env w = Some [].

(** Every stored id was handed out by the AUTO_INCREMENT counter. *)
Definition ids_below (w : World) : Prop :=
  Forall (fun m => id m < auto_increment w) (messages w).

(** Two environments in which the MySQL server behaves alike. *)
Definition same_store_answers (env env' : Env) : Prop :=
  select_all_rejects env = select_all_rejects env' /\
  insert_rejects env = insert_rejects env' /\
  select_id_rejects env = select_id_rejects env' /\
  CURRENT_TIMESTAMP env = CURRENT_TIMESTAMP env'.

(** A server that has just started on an empty table with an empty cache. *)
Definition fresh (pool : bool) (client : option bool) : World :=
  mkWorld pool [] 1 client ∅ [].

(** No awaited call rejects. *)
Definition calm (redis_now db_now : Z) : Env :=
  mkEnv None None None None None None redis_now db_now.

(** ** Predicates used in the statements *)

(** A string that is empty or begins with a character that is not white
    space. *)
Definition starts_clean (s : jsstring) : Prop :=
  match s with
  | [] => True
  | c :: _ => is_white_space c = false
  end.

Definition ends_clean (s : jsstring) : Prop := starts_clean (rev s).

(** The content of a stored message: not empty, not only white space, and
    with no white space at either end. *)
Definition proper_content (c : jsstring) : Prop :=
  c <> [] /\ forallb is_white_space c = false /\ trim c = c.



(** Stand-ins for the two built-ins in the examples; they are exact on the
    empty array, whose JSON text is the two characters of [js "[]"]. *)
Definition sample_parse (text : jsstring) : option Json :=
  if decide (text = js "[]") then Some (JArr []) else None.

Definition sample_stringify (rows : list Message) : jsstring := js "[]".

(** A server whose cache holds the serialised empty list until time 3600. *)
Definition warm_world : World :=
  mkWorld true [] 1 (Some true) {[ REDIS_MESSAGES_KEY := (js "[]", 3600) ]} [].

(** The MySQL server cannot be reached: every statement rejects. *)
Definition mysql_down : Env :=
  mkEnv None None None (Some Unreachable) (Some Unreachable) (Some Unreachable)
        0 0.

(** The Redis server answers every command with an error. *)
Definition redis_failing : Env :=
  mkEnv (Some OperationFailed) (Some OperationFailed) (Some OperationFailed)
        None None None 0 1700000000.

(** A request body whose content has white space around it. *)
Definition hello_body : Json := JObj [(js "content", JStr (js "  hello "))].


(** Three create requests whose timestamps are not in the order of arrival. *)
Definition three_posts : list (Request * Env) :=
  [(POST_api_messages (JObj [(js "content", JStr (js "a"))]), calm 0 200);
   (POST_api_messages (JObj [(js "content", JStr (js "b"))]), calm 0 100);
   (POST_api_messages (JObj [(js "content", JStr (js "c"))]), calm 0 300)].

(** ** Running a handler symbolically *)

(** Unfolds the handlers, the monad and the record projections, and leaves
    [trim], [live], the table queries and the map operations folded. *)
Ltac run :=
  cbv beta iota zeta delta
    [handle get_api_messages cache_lookup fetch_from_mysql parse
     post_api_messages destructure_content content_is_blank call_trim
     insert_and_reread invalidate first_row
     bind ret throw try_catch emit noting read settle log log_error
     redis_available client_open cached cache_miss redis_get redis_setEx redis_del set_redis
     set_table mysql_select_all mysql_insert mysql_select_id
     res_json res_status_json
     dbPool messages auto_increment redisClient redis journal
     get_rejects setEx_rejects del_rejects select_all_rejects insert_rejects
     select_id_rejects redis_time CURRENT_TIMESTAMP
     fst snd negb].

Ltac run_in H :=
  cbv beta iota zeta delta
    [client_open cached cache_miss ids_below same_store_answers
     dbPool messages auto_increment redisClient redis journal
     get_rejects setEx_rejects del_rejects select_all_rejects insert_rejects
     select_id_rejects redis_time CURRENT_TIMESTAMP
     fst snd negb] in H.

(** Opens the world and the environment so that their fields compute. *)
Ltac open_world w env :=
  destruct w as [pool rows next client store past];
  destruct env as [get_r setEx_r del_r select_all_r insert_r select_id_r
                   redis_now db_now];
  repeat match goal with
         | H : _ |- _ => progress run_in H
         end.

Ltac tidy_journal := rewrite <- ?app_assoc; cbn [app].

(** ** Starting the server *)

(** How a start-up routine ends: it returns, throws, or calls
    [process.exit], which no [catch] block intercepts. *)
Inductive Ending (A : Type) : Type :=
| Returned (a : A)
| Thrown (e : Error)
| Exited (code : Z).
Arguments Returned {A} a.
Arguments Thrown {A} e.
Arguments Exited {A} code.

Inductive Level : Type := level_log | level_warn | level_error.

(** Library calls and console lines of the start-up, with their arguments. *)
Inductive BootEvent : Type :=
| console (level : Level) (line : jsstring) (error : option Error)
| mysql_createConnection (host user password : jsstring)
| query_CREATE_DATABASE (name : jsstring)
| connection_end
| mysql_createPool (host user password database : jsstring)
| execute_CREATE_TABLE
| redis_createClient (url : jsstring)
| client_connect
| app_listen (port : jsstring).

(** The process and the two servers while the process starts. *)
Record Host : Type := mkHost {
  process_env : gmap jsstring jsstring;
  (** the database named by DB_NAME exists on the MySQL server *)
  database_exists : bool;
  (** its table [messages] exists; the rows are those of [world] *)
  table_exists : bool;
  (** the globals [dbPool] and [redisClient], the rows and the Redis keys *)
  world : World;
  (** the local [initialConnection] of [initializeMySQL] is set *)
  initialConnection : bool;
  (** [app.listen] has been called and the server accepts requests *)
  listening : bool;
  boot_journal : list BootEvent
}.

(** What the outside decides while the process starts. *)
Record BootEnv : Type := mkBootEnv {
  createConnection_rejects : option Error;
  create_database_rejects : option Error;
  end_rejects : option Error;
  createPool_throws : option Error;
  create_table_rejects : option Error;
  (** the second [end()], in the [catch] block *)
  end_again_rejects : option Error;
  createClient_throws : option Error;
  connect_rejects : option Error;
  (** [isOpen] of a client whose [connect()] was rejected *)
  open_after_failed_connect : bool;
  listen_fails : option Error
}.

Definition Startup (A : Type) : Type := Host -> Ending A * Host.

Definition returns {A} (a : A) : Startup A := fun h => (Returned a, h).

Definition throws {A} (e : Error) : Startup A := fun h => (Thrown e, h).

(** [process.exit(code)] *)
Definition process_exit {A} (code : Z) : Startup A := fun h => (Exited code, h).

Definition and_then {A B} (m : Startup A) (k : A -> Startup B) : Startup B :=
  fun h =>
    match m h with
    | (Returned a, h') => k a h'
    | (Thrown e, h') => (Thrown e, h')
    | (Exited code, h') => (Exited code, h')
    end.

(** [try { m } catch (error) { handler error }]; an exit is not caught. *)
Definition try_catch_exit {A} (m : Startup A) (handler : Error -> Startup A)
  : Startup A :=
  fun h =>
    match m h with
    | (Returned a, h') => (Returned a, h')
    | (Thrown e, h') => handler e h'
    | (Exited code, h') => (Exited code, h')
    end.

Declare Scope startup_scope.
Delimit Scope startup_scope with startup.
Notation "x <- m ;; k" := (and_then m (fun x => k))
  (at level 20, m at level 99, k at level 200, only parsing) : startup_scope.
Notation "m ;; k" := (and_then m (fun _ => k))
  (at level 100, k at level 200, only parsing, right associativity)
  : startup_scope.
Open Scope startup_scope.

Definition with_world (h : Host) (w : World) : Host :=
  mkHost (process_env h) (database_exists h) (table_exists h) w
         (initialConnection h) (listening h) (boot_journal h).

Definition note (e : BootEvent) : Startup unit :=
  fun h =>
    (Returned tt,
     mkHost (process_env h) (database_exists h) (table_exists h) (world h)
            (initialConnection h) (listening h) (boot_journal h ++ [e])).

Definition console_line (level : Level) (line : jsstring) : Startup unit :=
  note (console level line None).

Definition console_failure (line : jsstring) (e : Error) : Startup unit :=
  note (console level_error line (Some e)).

Definition outcome (rejects : option Error) : Startup unit :=
  match rejects with
  | Some e => throws e
  | None => returns tt
  end.

(** [process.env.NAME]: [None] is [undefined]. *)
Definition getenv (name : string) : Startup (option jsstring) :=
  fun h => (Returned (process_env h !! js name), h).

(** [!value] for a value read from [process.env]. *)
Definition unset (value : option jsstring) : bool :=
  match value with
  | None | Some [] => true
  | Some (_ :: _) => false
  end.

(** The string a template literal interpolates. *)
Definition interpolate (value : option jsstring) : jsstring :=
  match value with
  | Some s => s
  | None => js "undefined"
  end.

(** [let initialConnection;] and [initialConnection = ...] *)
Definition set_initialConnection (defined : bool) : Startup unit :=
  fun h =>
    (Returned tt,
     mkHost (process_env h) (database_exists h) (table_exists h) (world h)
            defined (listening h) (boot_journal h)).

(** [CREATE DATABASE IF NOT EXISTS] *)
Definition create_database : Startup unit :=
  fun h =>
    (Returned tt,
     mkHost (process_env h) true (table_exists h) (world h)
            (initialConnection h) (listening h) (boot_journal h)).

(** [dbPool = ...] *)
Definition assign_dbPool : Startup unit :=
  fun h =>
    (Returned tt,
     with_world h (mkWorld true (messages (world h)) (auto_increment (world h))
                           (redisClient (world h)) (redis (world h))
                           (journal (world h)))).

(** [CREATE TABLE IF NOT EXISTS messages (...)]: an existing table keeps its
    rows, a new one is empty and numbers its rows from 1; without the
    database the statement fails. *)
Definition create_table : Startup unit :=
  fun h =>
    if negb (database_exists h) then (Thrown OperationFailed, h)
    else if table_exists h then (Returned tt, h)
    else
      (Returned tt,
       mkHost (process_env h) (database_exists h) true
              (mkWorld (dbPool (world h)) [] 1 (redisClient (world h))
                       (redis (world h)) (journal (world h)))
              (initialConnection h) (listening h) (boot_journal h)).

(** [redisClient = ...] with the given [isOpen]. *)
Definition assign_redisClient (open : bool) : Startup unit :=
  fun h =>
    (Returned tt,
     with_world h (mkWorld (dbPool (world h)) (messages (world h))
                           (auto_increment (world h)) (Some open)
                           (redis (world h)) (journal (world h)))).

Definition start_listening : Startup unit :=
  fun h =>
    (Returned tt,
     mkHost (process_env h) (database_exists h) (table_exists h) (world h)
            (initialConnection h) true (boot_journal h)).

(** Lines 81-92: the [catch] block of [initializeMySQL]. *)
Definition mysql_failed (env : BootEnv) (dbName : option jsstring) (error : Error)
  : Startup unit :=
  console_failure
    (js "Failed during MySQL initialization (for database '"
        ++ interpolate dbName ++ js "'):") error;;
  connected <- (fun h => (Returned (initialConnection h), h));;
  (if connected then
     try_catch_exit
       (note connection_end;;
        outcome (end_again_rejects env);;
        console_line level_log
          (js "Ensured temporary connection is closed after error."))
       (fun closeError =>
          console_failure (js "Error closing temporary connection:") closeError)
   else returns tt);;
  process_exit 1.

(** Lines 48-79: the [try] block of [initializeMySQL]. *)
Definition mysql_steps (env : BootEnv) (dbHost dbUser dbPassword dbName : option jsstring)
  : Startup unit :=
  note (mysql_createConnection (interpolate dbHost) (interpolate dbUser)
                               (interpolate dbPassword));;
  outcome (createConnection_rejects env);;
  set_initialConnection true;;
  console_line level_log
    (js "Temporarily connected to MySQL server at " ++ interpolate dbHost
        ++ js " to check database.");;
  note (query_CREATE_DATABASE (interpolate dbName));;
  outcome (create_database_rejects env);;
  create_database;;
  console_line level_log
    (js "Database '" ++ interpolate dbName ++ js "' ensured to exist.");;
  note connection_end;;
  outcome (end_rejects env);;
  console_line level_log (js "Temporary connection closed.");;
  note (mysql_createPool (interpolate dbHost) (interpolate dbUser)
                         (interpolate dbPassword) (interpolate dbName));;
  outcome (createPool_throws env);;
  assign_dbPool;;
  console_line level_log
    (js "Successfully created connection pool to MySQL database '"
        ++ interpolate dbName ++ js "'.");;
  note execute_CREATE_TABLE;;
  outcome (create_table_rejects env);;
  create_table;;
  console_line level_log
    (js "Table 'messages' checked/created in database '"
        ++ interpolate dbName ++ js "'.").

(** [initializeMySQL], lines 36-93. *)
Definition initializeMySQL (env : BootEnv) : Startup unit :=
  dbHost <- getenv "DB_HOST";;
  dbUser <- getenv "DB_USER";;
  dbPassword <- getenv "DB_PASSWORD";;
  dbName <- getenv "DB_NAME";;
  if unset dbHost || unset dbUser || unset dbPassword || unset dbName then
    console_line level_error
      (js "Missing critical MySQL environment variables (DB_HOST, DB_USER, DB_PASSWORD, DB_NAME).");;
    process_exit 1
  else
    set_initialConnection false;;
    try_catch_exit
      (mysql_steps env dbHost dbUser dbPassword dbName)
      (mysql_failed env dbName).

(** Lines 109-111: the connection URL. *)
Definition redis_url (redisHost redisPort redisPassword : option jsstring)
  : jsstring :=
  if unset redisPassword
  then js "redis://" ++ interpolate redisHost ++ js ":"
          ++ interpolate redisPort
  else js "redis://:" ++ interpolate redisPassword ++ js "@"
          ++ interpolate redisHost ++ js ":" ++ interpolate redisPort.

(** [initializeRedis], lines 99-127.  The lines that the two listeners of
    line 119-120 print are not recorded: when the client emits [error] and
    [connect] is up to the library.  The promise of [client.connect()]
    either resolves or rejects here.  The library may also leave it pending
    for as long as it keeps trying to reach the server; [startServer] then
    stays suspended at line 198 and never listens, a run that no [BootEnv]
    describes. *)
Definition initializeRedis (env : BootEnv) : Startup unit :=
  redisHost <- getenv "REDIS_HOST";;
  redisPort <- getenv "REDIS_PORT";;
  redisPassword <- getenv "REDIS_PASSWORD";;
  if unset redisHost || unset redisPort then
    console_line level_warn
      (js "Missing REDIS_HOST or REDIS_PORT. Redis caching will be disabled.")
  else
    console_line level_log
      (js "Attempting to connect to Redis at: " ++ interpolate redisHost
        ++ js ":" ++ interpolate redisPort);;
    note (redis_createClient (redis_url redisHost redisPort redisPassword));;
    outcome (createClient_throws env);;
    assign_redisClient false;;
    try_catch_exit
      (note client_connect;;
       match connect_rejects env with
       | Some e =>
           assign_redisClient (open_after_failed_connect env);;
           throws e
       | None => assign_redisClient true
       end)
      (fun error =>
         console_failure
           (js "Failed to connect to Redis during initialization:") error).

(** Line 9: [process.env.PORT || 3000], as the text the log lines show. *)
Definition port : Startup jsstring :=
  value <- getenv "PORT";;
  returns (if unset value then js "3000" else interpolate value).

(** [startServer], lines 195-205. *)
Definition startServer (env : BootEnv) : Startup unit :=
  initializeMySQL env;;
  initializeRedis env;;
  p <- port;;
  note (app_listen p);;
  outcome (listen_fails env);;
  start_listening;;
  console_line level_log
    (js "Backend server running at http://localhost:" ++ p);;
  console_line level_log
    (js "API endpoints available at http://localhost:" ++ p
        ++ js "/api/messages");;
  console_line level_log
    (js "Metrics available at http://localhost:" ++ p ++ js "/metrics").

Close Scope startup_scope.

(** A machine on which the process has not started yet. *)
Definition powered_off (vars : gmap jsstring jsstring)
           (database table : bool) (rows : list Message) (next : Z)
           (keys : gmap jsstring (jsstring * Z)) : Host :=
  mkHost vars database table (mkWorld false rows next None keys []) false false [].

(** The variables [initializeMySQL] requires. *)
Definition mysql_configured (h : Host) : Prop :=
  unset (process_env h !! js "DB_HOST") = false /\
  unset (process_env h !! js "DB_USER") = false /\
  unset (process_env h !! js "DB_PASSWORD") = false /\
  unset (process_env h !! js "DB_NAME") = false.

Definition redis_configured (h : Host) : Prop :=
  unset (process_env h !! js "REDIS_HOST") = false /\
  unset (process_env h !! js "REDIS_PORT") = false.

(** The variables of a complete installation. *)
Definition configuration : gmap jsstring jsstring :=
  list_to_map
    [(js "DB_HOST", js "db"); (js "DB_USER", js "guest");
     (js "DB_PASSWORD", js "secret"); (js "DB_NAME", js "guestbook");
     (js "REDIS_HOST", js "cache"); (js "REDIS_PORT", js "6379")].

(** A configured machine with an empty MySQL server and an empty cache. *)
Definition new_machine : Host := powered_off configuration false false [] 1 ∅.

(** Every call of the start-up succeeds. *)
Definition quiet_boot : BootEnv :=
  mkBootEnv None None None None None None None None false None.

(** Every call of the start-up succeeds but [client.connect()], whose
    promise rejects. *)
Definition connect_rejected_boot : BootEnv :=
  mkBootEnv None None None None None None None (Some Unreachable) false None.

(** Nothing stops [initializeMySQL]: the variables are set and no call of
    its [try] block fails. *)
Definition mysql_ok (env : BootEnv) (h : Host) : Prop :=
  mysql_configured h /\
  createConnection_rejects env = None /\
  create_database_rejects env = None /\
  end_rejects env = None /\
  createPool_throws env = None /\
  create_table_rejects env = None.

(** Nothing escapes [initializeRedis]: it is not configured, or
    [createClient] accepts the URL. *)
Definition redis_ok (env : BootEnv) (h : Host) : Prop :=
  redis_configured h -> createClient_throws env = None.

(** ** Running the start-up symbolically *)

Ltac boot :=
  cbv beta iota zeta delta
    [startServer initializeMySQL initializeRedis mysql_steps mysql_failed port
     and_then returns throws process_exit try_catch_exit note console_line
     console_failure outcome getenv set_initialConnection create_database
     assign_dbPool create_table assign_redisClient start_listening with_world
     process_env database_exists table_exists world initialConnection
     listening boot_journal
     createConnection_rejects create_database_rejects end_rejects
     createPool_throws create_table_rejects end_again_rejects
     createClient_throws connect_rejects open_after_failed_connect listen_fails
     mysql_ok redis_ok mysql_configured redis_configured
     dbPool messages auto_increment redisClient redis journal
     fst snd negb].

Ltac boot_in H :=
  cbv beta iota zeta delta
    [mysql_ok redis_ok mysql_configured redis_configured
     process_env database_exists table_exists world initialConnection
     listening boot_journal
     createConnection_rejects create_database_rejects end_rejects
     createPool_throws create_table_rejects end_again_rejects
     createClient_throws connect_rejects open_after_failed_connect listen_fails
     dbPool messages auto_increment redisClient redis journal
     fst snd negb] in H.

Ltac open_host h env :=
  destruct h as [vars database table [pool rows next client keys past]
                 connection listens printed];
  destruct env as [createConnection_r create_database_r end_r createPool_r
                   create_table_r end_again_r createClient_r connect_r
                   open_after listen_r];
  repeat match goal with
         | H : _ |- _ => progress boot_in H
         end.

(** ** The page script *)

(** The part of the document the script builds. *)
#[warnings="-register-all"]
Inductive Node : Type :=
| TextNode (data : jsstring)
| Element (tag : string) (classes : list string) (children : list Node).

(** What a [catch] block of the script receives. *)
Inductive Failure : Type :=
| fetch_rejected                (** the request did not get a response *)
| http_error (status : Z)       (** [new Error(`HTTP error! status: ...`)] *)
| json_rejected                 (** [response.json()] rejected *)
| type_error.                   (** a TypeError of the script itself *)

(** What [fetch] settles to: a rejection, or a response with its status and
    the value [response.json()] resolves to ([None]: it rejects). *)
Inductive Fetched : Type :=
| NoResponse
| HttpResponse (status : Z) (json : option Json).

(** [response.ok] *)
Definition ok (status : Z) : bool := (200 <=? status) && (status <=? 299).

Inductive PageEvent : Type :=
| alert (message : string)
| page_console_error (line : string) (failure : Failure)
| fetch_GET                        (** [fetch('/api/messages')] *)
| fetch_POST (request_body : Json). (** [fetch('/api/messages', {method: 'POST', ...})] *)

Record Page : Type := mkPage {
  (** [messageText.value] *)
  messageText : jsstring;
  (** the children of [messagesContainer] *)
  messagesContainer : list Node;
  (** alerts, console lines and requests, oldest first *)
  happened : list PageEvent
}.

(** [node.textContent = text]: the children are replaced by one text node,
    or by nothing when the text is empty. *)
Definition text_children (text : jsstring) : list Node :=
  match text with
  | [] => []
  | _ :: _ => [TextNode text]
  end.

(** [messagesContainer.innerHTML = '<p>...</p>'] for the three literals of
    the script. *)
Definition paragraph (text : string) : list Node :=
  [Element "p" [] [TextNode (js text)]].

(** [value.name] on a value read from JSON: reading a property of [null]
    throws, an object has the property or not, and neither arrays nor
    primitives have one of the names the script reads. *)
Definition property (name : string) (value : Json) : Failure + JsValue :=
  match value with
  | JNull => inl type_error
  | JObj props => inr (get_prop (js name) props)
  | _ => inr None
  end.

(** [messages.length === 0] for a truthy [messages]. *)
Definition length_is_zero (messages : Json) : bool :=
  match messages with
  | JArr items => match items with [] => true | _ :: _ => false end
  | JObj props =>
      match get_prop (js "length") props with
      | Some (JNum (S754_zero _)) => true
      | _ => false
      end
  | _ => false
  end.

Section Browser.

(** The string conversion of the [textContent] setter for a value that is
    neither a string nor [null] nor [undefined], and
    [new Date(value).toLocaleString()]: built-ins of the browser.  Either
    one throws a TypeError ([None]) when the value is an object that cannot
    be converted to a primitive, as [{"toString": 1}]. *)
Variable ToString : Json -> option jsstring.
Variable toLocaleString : Json -> option jsstring.

Definition converted (text : option jsstring) : Failure + jsstring :=
  match text with
  | Some text => inr text
  | None => inl type_error
  end.

(** [content.textContent = message.content], line 35: the text the setter
    stores, or the failure it throws. *)
Definition content_text (value : JsValue) : Failure + jsstring :=
  match value with
  | None | Some JNull => inr []
  | Some (JStr s) => inr s
  | Some other => converted (ToString other)
  end.

(** [message.created_at ? new Date(message.created_at).toLocaleString()
    : 'Just now'], line 39 *)
Definition timestamp_text (value : JsValue) : Failure + jsstring :=
  match value with
  | Some created_at =>
      if truthy value then converted (toLocaleString created_at)
      else inr (js "Just now")
  | None => inr (js "Just now")
  end.

(** Lines 30-44: the callback of [forEach], up to the element it appends;
    the statements that can throw are taken in the order of the script. *)
Definition message_item (message : Json) : Failure + Node :=
  match property "content" message with
  | inl failure => inl failure
  | inr content =>
      match content_text content with
      | inl failure => inl failure
      | inr shown =>
          match property "created_at" message with
          | inl failure => inl failure
          | inr created_at =>
              match timestamp_text created_at with
              | inl failure => inl failure
              | inr stamp =>
                  inr (Element "div" ["message-item"%string]
                         [Element "p" [] (text_children shown);
                          Element "small" [] (text_children stamp)])
              end
          end
      end
  end.

(** [items.forEach(...)]: the items are appended one by one until one
    throws. *)
Fixpoint append_items (items : list Json) (children : list Node)
  : option Failure * list Node :=
  match items with
  | [] => (None, children)
  | message :: rest =>
      match message_item message with
      | inl failure => (Some failure, children)
      | inr item => append_items rest (children ++ [item])
      end
  end.

(** [displayMessages(messages)], lines 22-45: the failure it throws, if any,
    and the children of the container when it ends. *)
Definition displayMessages (messages : JsValue) : option Failure * list Node :=
  match messages with
  | Some value =>
      if negb (truthy messages) || length_is_zero value then
        (None, paragraph "No messages yet. Be the first to post!")
      else
        match value with
        | JArr items => append_items items []
        | _ => (Some type_error, [])
        end
  | None => (None, paragraph "No messages yet. Be the first to post!")
  end.

Definition happen (e : PageEvent) (page : Page) : Page :=
  mkPage (messageText page) (messagesContainer page) (happened page ++ [e]).

Definition render (children : list Node) (page : Page) : Page :=
  mkPage (messageText page) children (happened page).

(** Lines 16-19: the [catch] block of [fetchMessages]. *)
Definition fetch_failed (failure : Failure) (page : Page) : Page :=
  render (paragraph "Error loading messages. Is the backend running?")
       (happen (page_console_error "Failed to fetch messages:" failure) page).

(** [fetchMessages()], lines 8-20, given what the request settles to. *)
Definition fetchMessages (answer : Fetched) (page : Page) : Page :=
  let page := happen fetch_GET page in
  match answer with
  | NoResponse => fetch_failed fetch_rejected page
  | HttpResponse status json =>
      if negb (ok status) then fetch_failed (http_error status) page
      else
        match json with
        | None => fetch_failed json_rejected page
        | Some messages =>
            match displayMessages (Some messages) with
            | (None, children) => render children page
            | (Some failure, children) =>
                fetch_failed failure (render children page)
            end
        end
  end.

(** The [submit] listener, lines 48-77, given what its POST and the GET of
    the refresh settle to. *)
Definition submit (posted listed : Fetched) (page : Page) : Page :=
  let messageContent := trim (messageText page) in
  if is_empty messageContent then happen (alert "Please enter a message.") page
  else
    let request_body := JObj [(js "content", JStr messageContent)] in
    let page := happen (fetch_POST request_body) page in
    let failed failure :=
      happen (alert "Failed to post message. Check console for details.")
             (happen (page_console_error "Failed to post message:" failure)
                     page) in
    match posted with
    | NoResponse => failed fetch_rejected
    | HttpResponse status _ =>
        if negb (ok status) then failed (http_error status)
        else
          fetchMessages listed
            (mkPage [] (messagesContainer page) (happened page))
    end.

End Browser.

(** The requests a page has sent, oldest first. *)
Definition sent (page : Page) : list Request :=
  omap (fun e => match e with
                 | fetch_GET => Some GET_api_messages
                 | fetch_POST request_body => Some (POST_api_messages request_body)
                 | _ => None
                 end)
       (happened page).

(** The request got a response whose [ok] is true. *)
Definition accepted (answer : Fetched) : bool :=
  match answer with
  | NoResponse => false
  | HttpResponse status _ => ok status
  end.

(** Stand-ins for the two built-ins of the browser in the examples: an
    object with a [toString] of its own, which JSON cannot make callable, is
    not converted. *)
Definition sample_ToString (value : Json) : option jsstring :=
  match value with
  | JObj props =>
      match get_prop (js "toString") props with
      | Some _ => None
      | None => Some (js "[object Object]")
      end
  | _ => Some (js "[object Object]")
  end.

Definition sample_toLocaleString (value : Json) : option jsstring :=
  match value with
  | JStr s => Some s
  | JObj props =>
      match get_prop (js "toString") props with
      | Some _ => None
      | None => Some (js "Invalid Date")
      end
  | _ => Some (js "Invalid Date")
  end.

(** A row whose content cannot be converted to a string. *)
Definition opaque_row : Json :=
  JObj [(js "content", JObj [(js "toString", JNum (S754_finite false 1 0))])].

(** A row as the list endpoint serialises it; its content looks like
    markup. *)
Definition sample_row : Json :=
  JObj [(js "id", JNum (S754_finite false 1 0));
        (js "content", JStr (js "<b>hello</b>"));
        (js "created_at", JStr (js "2024-05-01T10:00:00.000Z"))].

(** A page on which the user has typed a text and nothing has happened. *)
Definition typed (value : jsstring) : Page := mkPage value [] [].

(** * Properties *)

(** ** [String.prototype.trim] *)

Lemma trimStart_clean s : starts_clean (trimStart s).
Proof.
  induction s as [|c s IH]; simpl; [exact I|].
  destruct (is_white_space c) eqn:E; [exact IH | exact E].
Qed.

Lemma trimStart_fixed s : starts_clean s -> trimStart s = s.
Proof.
  destruct s as [|c s]; simpl; [reflexivity|].
  intros ->. reflexivity.
Qed.

Lemma trimStart_suffix s : exists p, s = p ++ trimStart s.
Proof.
  induction s as [|c s [p IH]]; simpl.
  - exists []. reflexivity.
  - destruct (is_white_space c).
    + exists (c :: p). simpl. f_equal. exact IH.
    + exists []. reflexivity.
Qed.

Lemma trimEnd_prefix s : exists q, s = trimEnd s ++ q.
Proof.
  unfold trimEnd. destruct (trimStart_suffix (rev s)) as [p Hp].
  exists (rev p).
  rewrite <- (rev_involutive s), Hp at 1.
  apply rev_app_distr.
Qed.

Lemma trimEnd_clean s : ends_clean (trimEnd s).
Proof.
  unfold ends_clean, trimEnd. rewrite rev_involutive. apply trimStart_clean.
Qed.

Lemma trimEnd_fixed s : ends_clean s -> trimEnd s = s.
Proof.
  unfold ends_clean, trimEnd. intros H.
  rewrite (trimStart_fixed _ H). apply rev_involutive.
Qed.

Lemma trimEnd_keeps_start s : starts_clean s -> starts_clean (trimEnd s).
Proof.
  intros H. destruct (trimEnd_prefix s) as [q Hq].
  destruct (trimEnd s) as [|c t]; [exact I|].
  rewrite Hq in H. exact H.
Qed.

Lemma trim_clean s : starts_clean (trim s) /\ ends_clean (trim s).
Proof.
  unfold trim. split.
  - apply trimEnd_keeps_start, trimStart_clean.
  - apply trimEnd_clean.
Qed.

Lemma trim_idempotent s : trim (trim s) = trim s.
Proof.
  destruct (trim_clean s) as [Hs He].
  unfold trim at 1. rewrite (trimStart_fixed _ Hs). apply trimEnd_fixed, He.
Qed.

Lemma clean_not_blank s :
  s <> [] -> starts_clean s -> forallb is_white_space s = false.
Proof.
  destruct s as [|c s]; [congruence|].
  simpl. intros _ ->. reflexivity.
Qed.

Lemma trim_proper s : trim s <> [] -> proper_content (trim s).
Proof.
  intros H. repeat split.
  - exact H.
  - apply clean_not_blank; [exact H | apply trim_clean].
  - apply trim_idempotent.
Qed.

Lemma is_empty_false s : is_empty s = false <-> s <> [].
Proof. destruct s; simpl; split; congruence. Qed.

Example trim_spaces : trim (js "  a b  ") = js "a b".
Proof. reflexivity. Qed.

(** NBSP, LINE SEPARATOR and the byte order mark are stripped as well. *)
Example trim_unicode : trim [160; 97; 8232; 65279]%N = js "a".
Proof. reflexivity. Qed.

Example trim_blank : trim (js "   ") = [].
Proof. reflexivity. Qed.

(** U+200B, U+180E and U+0085 are not white space for [trim]. *)
Example not_white_space :
  map is_white_space [8203; 6158; 133]%N = [false; false; false].
Proof. reflexivity. Qed.

(** ** [ORDER BY created_at DESC] *)

Lemma insert_desc_perm m l : Permutation (insert_desc m l) (m :: l).
Proof.
  induction l as [|x l IH]; simpl; [reflexivity|].
  destruct (created_at m <? created_at x); [|reflexivity].
  rewrite IH. apply perm_swap.
Qed.

Lemma order_by_perm rows : Permutation (order_by_created_at_desc rows) rows.
Proof.
  induction rows as [|m rows IH]; simpl; [reflexivity|].
  rewrite insert_desc_perm. apply perm_skip, IH.
Qed.



(** ** The table under the two queries *)

Lemma where_id_fresh i rows m :
  Forall (fun r => id r < i) rows -> id m = i ->
  where_id i (rows ++ [m]) = [m].
Proof.
  intros Hbelow Hm. unfold where_id.
  rewrite List.filter_app. cbn [List.filter]. rewrite Hm, Z.eqb_refl.
  induction Hbelow as [|r rows Hr _ IH]; cbn [List.filter app].
  - reflexivity.
  - destruct (Z.eqb_spec (id r) i); [lia | exact IH].
Qed.

(** ** Creating a message *)

(** C2. When the body has no content (or a content that is falsy: [null],
    [false], zero, the empty string), or its content is a string that trims
    to the empty string, the create handler answers 400 with
    [{error: "Message content cannot be empty"}] and leaves the world as it
    was: no row is added, the cache is not touched, and no call to MySQL or
    Redis is issued. *)
Theorem blank_content_rejected props env w :
  truthy (get_prop (js "content") props) = false \/
  (exists s, get_prop (js "content") props = Some (JStr s) /\ trim s = []) ->
  post_api_messages (JObj props) env w =
    (Normal (mkResponse 400 (ErrorBody "Message content cannot be empty")), w).
Proof.
  intros [Hfalsy | (s & Hsome & Hblank)]; run.
  - rewrite Hfalsy. reflexivity.
  - rewrite Hsome. destruct s as [|c s]; run; [reflexivity|].
    rewrite Hblank. reflexivity.
Qed.

Lemma blank_content_rejected_witness :
  post_api_messages (JObj [(js "content", JStr (js "   "))])
                    (calm 0 0) (fresh true (Some true)) =
    (Normal (mkResponse 400 (ErrorBody "Message content cannot be empty")),
     fresh true (Some true)) /\
  post_api_messages (JObj []) (calm 0 0) (fresh true (Some true)) =
    (Normal (mkResponse 400 (ErrorBody "Message content cannot be empty")),
     fresh true (Some true)).
Proof.
  split.
  - apply blank_content_rejected.
    right. exists (js "   "). split; reflexivity.
  - apply blank_content_rejected. left. reflexivity.
Defined.

(** C10. When the content in the body is truthy and not a string, the
    validation expression of line 165 calls [content.trim()] outside the
    [try] block: the handler ends with an uncaught TypeError, sends no
    response, and leaves the world, the table included, as it was. *)
Theorem non_string_content_throws props v env w :
  get_prop (js "content") props = Some v ->
  truthy (Some v) = true ->
  (forall s, v <> JStr s) ->
  post_api_messages (JObj props) env w = (Throw TypeError, w).
Proof.
  intros Hv Htruthy Hnot_string. run. rewrite Hv, Htruthy.
  destruct v; try reflexivity.
  destruct (Hnot_string s eq_refl).
Qed.

Lemma non_string_content_throws_witness :
  post_api_messages (JObj [(js "content", JNum (S754_finite false 21 1))])
                    (calm 0 0) (fresh true (Some true)) =
    (Throw TypeError, fresh true (Some true)) /\
  post_api_messages (JObj [(js "content", JObj [(js "trim", JBool true)])])
                    (calm 0 0) (fresh true (Some true)) =
    (Throw TypeError, fresh true (Some true)).
Proof.
  split.
  - apply (non_string_content_throws _ (JNum (S754_finite false 21 1)));
      [reflexivity | reflexivity | discriminate].
  - apply (non_string_content_throws _ (JObj [(js "trim", JBool true)]));
      [reflexivity | reflexivity | discriminate].
Defined.

(** C4. A create request whose content is a string that does not trim to
    empty, on a server whose pool is set and whose insert, invalidation and
    re-read do not reject, is answered 201 with the row that the re-read by
    the generated id finds in the table: its id is the AUTO_INCREMENT value,
    its created_at the timestamp of the MySQL server, its content the trimmed
    string.  The calls are issued in the order insert, invalidation (when
    the client is open), re-read. *)
Theorem created_row_returned props s env w :
  get_prop (js "content") props = Some (JStr s) ->
  trim s <> [] ->
  dbPool w = true ->
  ids_below w ->
  insert_rejects env = None ->
  select_id_rejects env = None ->
  (client_open w = true -> del_rejects env = None) ->
  let row := mkMessage (auto_increment w) (trim s) (CURRENT_TIMESTAMP env) in
  let r := post_api_messages (JObj props) env w in
  fst r = Normal (mkResponse 201 (RowBody (Some row))) /\
  messages (snd r) = messages w ++ [row] /\
  where_id (auto_increment w) (messages (snd r)) = [row] /\
  issued w (snd r) =
    (if client_open w
     then [mysql_INSERT (trim s);
           redis_DEL REDIS_MESSAGES_KEY;
           console_log "Redis cache for messages invalidated.";
           mysql_SELECT_id (auto_increment w)]
     else [mysql_INSERT (trim s);
           console_log
             "Redis client not available or not open, skipping cache invalidation.";
           mysql_SELECT_id (auto_increment w)]).
Proof.
  intros Hcontent Htrim Hpool Hids Hinsert Hselect Hdel row r. subst r row.
  assert (Hread :
            where_id (auto_increment w)
              (messages w ++
                 [mkMessage (auto_increment w) (trim s) (CURRENT_TIMESTAMP env)]) =
            [mkMessage (auto_increment w) (trim s) (CURRENT_TIMESTAMP env)])
    by (apply where_id_fresh; [exact Hids | reflexivity]).
  assert (Hfilled : is_empty (trim s) = false) by (apply is_empty_false, Htrim).
  assert (Htruthy : truthy (Some (JStr s)) = true).
  { destruct s; [destruct Htrim; reflexivity | reflexivity]. }
  unfold issued. open_world w env. subst.
  run. rewrite Hcontent, Htruthy. run. rewrite Hfilled.
  destruct client as [[|]|]; run; try rewrite (Hdel eq_refl);
    rewrite Hread; run; tidy_journal;
    (split; [reflexivity | split; [reflexivity | split; [reflexivity|]]]);
    apply drop_app_length.
Qed.

Lemma created_row_returned_witness :
  fst (post_api_messages hello_body (calm 0 1700000000) (fresh true (Some true))) =
    Normal (mkResponse 201 (RowBody (Some (mkMessage 1 (js "hello") 1700000000)))) /\
  issued (fresh true (Some true))
         (snd (post_api_messages hello_body (calm 0 1700000000)
                                 (fresh true (Some true)))) =
    [mysql_INSERT (js "hello");
     redis_DEL REDIS_MESSAGES_KEY;
     console_log "Redis cache for messages invalidated.";
     mysql_SELECT_id 1].
Proof.
  assert (Hfilled : trim (js "  hello ") <> []) by (cbv; discriminate).
  assert (Hids : ids_below (fresh true (Some true))) by constructor.
  destruct (created_row_returned
              [(js "content", JStr (js "  hello "))] (js "  hello ")
              (calm 0 1700000000) (fresh true (Some true))
              eq_refl Hfilled eq_refl Hids eq_refl eq_refl
              (fun _ => eq_refl))
    as (Hresponse & _ & _ & Hissued).
  split; [exact Hresponse | exact Hissued].
Defined.

(** ** Invalidation *)

(** C9. Running the invalidation of lines 179-184 twice in a row leaves the
    Redis keys exactly as running it once does, so the second run changes
    nothing; when the [del] calls do not reject, neither run raises an error,
    and with an open client the key is absent after one run and after two. *)
Theorem invalidate_idempotent env1 env2 w :
  let once := invalidate env1 w in
  let twice := (invalidate env1;; invalidate env2) w in
  redis (snd twice) = redis (snd once) /\
  (del_rejects env1 = None -> del_rejects env2 = None ->
   fst once = Normal tt /\ fst twice = Normal tt /\
   (client_open w = true ->
    redis (snd once) !! REDIS_MESSAGES_KEY = None /\
    redis (snd twice) !! REDIS_MESSAGES_KEY = None)).
Proof.
  intros once twice. subst once twice.
  destruct env1 as [g1 s1 d1 a1 i1 r1 t1 c1].
  destruct env2 as [g2 s2 d2 a2 i2 r2 t2 c2].
  destruct w as [pool rows next client store past].
  run. split.
  - destruct client as [[|]|]; run; try reflexivity.
    destruct d1; run; [reflexivity|].
    destruct d2; run; [reflexivity|].
    apply delete_delete_eq.
  - intros -> ->. destruct client as [[|]|]; run; repeat split; try discriminate.
    + apply lookup_delete_eq.
    + rewrite delete_delete_eq. apply lookup_delete_eq.
Qed.

Lemma invalidate_idempotent_witness :
  redis (snd ((invalidate (calm 10 0);; invalidate (calm 11 0)) warm_world)) =
    redis (snd (invalidate (calm 10 0) warm_world)) /\
  fst ((invalidate (calm 10 0);; invalidate (calm 11 0)) warm_world) = Normal tt /\
  redis (snd ((invalidate (calm 10 0);; invalidate (calm 11 0)) warm_world))
    !! REDIS_MESSAGES_KEY = None.
Proof.
  destruct (invalidate_idempotent (calm 10 0) (calm 11 0) warm_world)
    as [Hsame Hquiet].
  destruct Hquiet as (_ & Htwice & Habsent); [reflexivity | reflexivity |].
  destruct Habsent as [_ Habsent]; [reflexivity|].
  split; [exact Hsame | split; [exact Htwice | exact Habsent]].
Defined.

(** ** Listing the messages *)

Section Listing.

Variable JSON_parse : jsstring -> option Json.
Variable JSON_stringify : list Message -> jsstring.

#[local] Abbreviation get_messages := (get_api_messages JSON_parse JSON_stringify).

(** The list handler never writes to the table. *)
Lemma get_keeps_table env w :
  messages (snd (get_messages env w)) = messages w /\
  auto_increment (snd (get_messages env w)) = auto_increment w.
Proof.
  open_world w env. run.
  repeat (case_match; run; simplify_eq; try (split; reflexivity)).
Qed.

(** C6. With an open client whose [get] returns a non-empty text that
    [JSON.parse] accepts, the list handler answers 200 with the parsed value
    and issues nothing but the [get] and one console line: no call to MySQL,
    even when the pool is not set.  Conversely, a list request that issues a
    call to MySQL had a closed client, or a [get] that returned [null] or
    the empty string. *)
Theorem cache_hit_skips_store env w :
  let r := get_messages env w in
  (forall text value,
     client_open w = true ->
     get_rejects env = None ->
     cached env w = Some text ->
     text <> [] ->
     JSON_parse text = Some value ->
     r = (Normal (res_json (JsonBody value)),
          noting w [redis_GET REDIS_MESSAGES_KEY;
                    console_log "Serving messages from Redis cache"])) /\
  (existsb store_event (issued w (snd r)) = true ->
   client_open w = false \/ (get_rejects env = None /\ cache_miss env w)).
Proof.
  intros r. subst r. split.
  - intros text value Hopen Hget Hcached Hfilled Hparse.
    open_world w env. subst.
    destruct client as [[|]|]; try discriminate.
    run. rewrite Hcached. destruct text as [|c text]; [congruence|].
    run. rewrite Hparse. run. tidy_journal. reflexivity.
  - unfold issued. open_world w env.
    destruct client as [[|]|]; run; [|left; reflexivity|left; reflexivity].
    destruct get_r as [e|]; run; tidy_journal.
    { rewrite drop_app_length. discriminate. }
    destruct (live redis_now store REDIS_MESSAGES_KEY) as [[|c text]|] eqn:Hlive;
      [right; split; [reflexivity | right; reflexivity]
      | | right; split; [reflexivity | left; reflexivity]].
    run. destruct (JSON_parse (c :: text)); run; tidy_journal;
      rewrite drop_app_length; discriminate.
Qed.

(** C8. With an open client, a [get] that misses, a pool that is set and no
    rejected call, the list handler writes the serialised rows under
    [REDIS_MESSAGES_KEY], and under no other key, with [setEx] and 3600
    seconds: the entry is readable exactly until 3600 seconds after the
    Redis time of the request. *)
Theorem cache_fill_one_hour env w :
  client_open w = true ->
  get_rejects env = None ->
  cache_miss env w ->
  dbPool w = true ->
  select_all_rejects env = None ->
  setEx_rejects env = None ->
  let rows := order_by_created_at_desc (messages w) in
  let r := get_messages env w in
  fst r = Normal (res_json (RowsBody rows)) /\
  redis (snd r) =
    <[REDIS_MESSAGES_KEY := (JSON_stringify rows, redis_time env + 3600)]>
      (redis w) /\
  issued w (snd r) =
    [redis_GET REDIS_MESSAGES_KEY;
     console_log "Fetching messages from MySQL";
     mysql_SELECT_all;
     redis_SETEX REDIS_MESSAGES_KEY 3600 (JSON_stringify rows);
     console_log "Messages cached in Redis"] /\
  (forall now,
     live now (redis (snd r)) REDIS_MESSAGES_KEY =
       if now <? redis_time env + 3600 then Some (JSON_stringify rows) else None).
Proof.
  intros Hopen Hget Hmiss Hpool Hselect HsetEx rows r. subst rows r.
  unfold issued. open_world w env. subst.
  destruct client as [[|]|]; try discriminate.
  assert (Hfilled :
            forall now,
              live now
                (<[REDIS_MESSAGES_KEY :=
                     (JSON_stringify (order_by_created_at_desc rows),
                      redis_now + 3600)]> store)
                REDIS_MESSAGES_KEY =
              if now <? redis_now + 3600
              then Some (JSON_stringify (order_by_created_at_desc rows))
              else None).
  { intros now. unfold live. rewrite lookup_insert_eq. reflexivity. }
  run. destruct Hmiss as [-> | ->]; run; tidy_journal;
    (split; [reflexivity | split; [reflexivity | split]]);
    first [apply drop_app_length | exact Hfilled].
Qed.


End Listing.

Lemma cache_hit_skips_store_witness :
  get_api_messages sample_parse sample_stringify (calm 10 0) warm_world =
    (Normal (res_json (JsonBody (JArr []))),
     noting warm_world [redis_GET REDIS_MESSAGES_KEY;
                        console_log "Serving messages from Redis cache"]).
Proof.
  destruct (cache_hit_skips_store sample_parse sample_stringify
              (calm 10 0) warm_world) as [Hhit _].
  apply (Hhit (js "[]") (JArr []));
    [reflexivity | reflexivity | reflexivity | discriminate | reflexivity].
Defined.

Lemma cache_fill_one_hour_witness :
  fst (get_api_messages sample_parse sample_stringify (calm 10 0)
                        (fresh true (Some true))) =
    Normal (res_json (RowsBody [])) /\
  redis (snd (get_api_messages sample_parse sample_stringify (calm 10 0)
                               (fresh true (Some true))))
    !! REDIS_MESSAGES_KEY = Some (js "[]", 3610).
Proof.
  destruct (cache_fill_one_hour sample_parse sample_stringify
              (calm 10 0) (fresh true (Some true))
              eq_refl eq_refl (or_introl eq_refl) eq_refl eq_refl eq_refl)
    as (Hresponse & Hredis & _ & _).
  split; [exact Hresponse|].
  rewrite Hredis. apply lookup_insert_eq.
Defined.

(** The three rows come back with the newest timestamp first. *)
Example listing_three_posts :
  fst (get_api_messages sample_parse sample_stringify (calm 0 0)
         (serve sample_parse sample_stringify three_posts (fresh true None))) =
    Normal (res_json (RowsBody [mkMessage 3 (js "c") 300;
                                mkMessage 1 (js "a") 200;
                                mkMessage 2 (js "b") 100])).
Proof. reflexivity. Qed.

(** ** The content of stored messages *)

(** A create request leaves the table alone or appends one row whose content
    is a trimmed string that is not empty. *)
Lemma post_table req_body env w :
  (messages (snd (post_api_messages req_body env w)) = messages w /\
   auto_increment (snd (post_api_messages req_body env w)) = auto_increment w) \/
  exists s,
    trim s <> [] /\
    messages (snd (post_api_messages req_body env w)) =
      messages w ++
        [mkMessage (auto_increment w) (trim s) (CURRENT_TIMESTAMP env)] /\
    auto_increment (snd (post_api_messages req_body env w)) =
      auto_increment w + 1.
Proof.
  open_world w env. run.
  repeat (case_match; run; simplify_eq; try (left; split; reflexivity)).
  all: right; eexists; split; [|split; reflexivity]; apply is_empty_false; eauto.
Qed.

Section Invariant.

Variable JSON_parse : jsstring -> option Json.
Variable JSON_stringify : list Message -> jsstring.

Lemma handle_keeps_proper rq env w :
  Forall (fun m => proper_content (content m)) (messages w) ->
  Forall (fun m => proper_content (content m))
         (messages (snd (handle JSON_parse JSON_stringify rq env w))).
Proof.
  intros Hw. destruct rq as [|req_body]; cbn [handle].
  - destruct (get_keeps_table JSON_parse JSON_stringify env w) as [-> _].
    exact Hw.
  - destruct (post_table req_body env w) as [[-> _] | (s & Hs & -> & _)];
      [exact Hw|].
    apply Forall_app. split; [exact Hw|].
    constructor; [|constructor].
    apply trim_proper, Hs.
Qed.

(** The ids in the table stay below the AUTO_INCREMENT counter. *)
Lemma handle_keeps_ids_below rq env w :
  ids_below w -> ids_below (snd (handle JSON_parse JSON_stringify rq env w)).
Proof.
  unfold ids_below. intros Hw. destruct rq as [|req_body]; cbn [handle].
  - destruct (get_keeps_table JSON_parse JSON_stringify env w) as [-> ->].
    exact Hw.
  - destruct (post_table req_body env w) as [[-> ->] | (s & _ & -> & ->)];
      [exact Hw|].
    apply Forall_app. split.
    + eapply Forall_impl; [exact Hw|]. cbv beta. intros m Hm. lia.
    + constructor; [cbn [id]; lia | constructor].
Qed.

Lemma serve_keeps_ids_below rqs w :
  ids_below w -> ids_below (serve JSON_parse JSON_stringify rqs w).
Proof.
  revert w. induction rqs as [|[rq env] rqs IH]; intros w Hw; cbn [serve].
  - exact Hw.
  - apply IH, handle_keeps_ids_below, Hw.
Qed.

Lemma serve_keeps_proper rqs w :
  Forall (fun m => proper_content (content m)) (messages w) ->
  Forall (fun m => proper_content (content m))
         (messages (serve JSON_parse JSON_stringify rqs w)).
Proof.
  revert w. induction rqs as [|[rq env] rqs IH]; intros w Hw; cbn [serve].
  - exact Hw.
  - apply IH, handle_keeps_proper, Hw.
Qed.

(** C7. After any sequence of list and create requests, with any bodies and
    under any behaviour of MySQL and Redis, every row in the table of a
    server that started on an empty table has a content that is not empty,
    is not made of white space only, and is equal to its own trim.  The
    same holds from any table that already has the property. *)
Theorem stored_content_proper rqs :
  (forall pool client,
     Forall (fun m => proper_content (content m))
            (messages (serve JSON_parse JSON_stringify rqs (fresh pool client)))) /\
  (forall w,
     Forall (fun m => proper_content (content m)) (messages w) ->
     Forall (fun m => proper_content (content m))
            (messages (serve JSON_parse JSON_stringify rqs w))).
Proof.
  split.
  - intros pool client. apply serve_keeps_proper. constructor.
  - intros w. apply serve_keeps_proper.
Qed.

End Invariant.

Lemma stored_content_proper_witness :
  Forall (fun m => proper_content (content m))
         (messages (serve sample_parse sample_stringify
                          ((POST_api_messages hello_body, calm 0 50) :: three_posts)
                          (fresh true (Some true)))) /\
  length (messages (serve sample_parse sample_stringify
                          ((POST_api_messages hello_body, calm 0 50) :: three_posts)
                          (fresh true (Some true)))) = 4%nat.
Proof.
  split; [|reflexivity].
  destruct (stored_content_proper sample_parse sample_stringify
              ((POST_api_messages hello_body, calm 0 50) :: three_posts))
    as [Hfresh _].
  apply Hfresh.
Defined.

(** ** The handles *)

Section Handles.

Variable JSON_parse : jsstring -> option Json.
Variable JSON_stringify : list Message -> jsstring.

#[local] Abbreviation handle_request := (handle JSON_parse JSON_stringify).
#[local] Abbreviation serve_requests := (serve JSON_parse JSON_stringify).

(** No handler assigns [dbPool] or [redisClient]. *)
Lemma handle_keeps_handles rq env w :
  dbPool (snd (handle_request rq env w)) = dbPool w /\
  redisClient (snd (handle_request rq env w)) = redisClient w.
Proof.
  open_world w env. destruct rq as [|req_body]; run;
    repeat (case_match; run; simplify_eq); split; reflexivity.
Qed.

Lemma serve_keeps_handles rqs w :
  dbPool (serve_requests rqs w) = dbPool w /\
  redisClient (serve_requests rqs w) = redisClient w.
Proof.
  revert w. induction rqs as [|[rq env] rqs IH]; intros w; cbn [serve].
  - split; reflexivity.
  - destruct (IH (snd (handle_request rq env w))) as [-> ->].
    apply handle_keeps_handles.
Qed.

(** With the pool set, the guard of lines 145 and 170 does not fire. *)
Lemma pool_set_no_503 rq env w r :
  dbPool w = true ->
  fst (handle_request rq env w) = Normal r ->
  status r <> 503.
Proof.
  intros Hpool. open_world w env. subst. destruct rq as [|req_body]; run;
    repeat (case_match; run; simplify_eq); intros [= <-]; discriminate.
Qed.

End Handles.

(** ** What a listing shows *)

Section Shown.

Variable JSON_parse : jsstring -> option Json.
Variable JSON_stringify : list Message -> jsstring.


End Shown.


(** The same happens without any rejected call when two requests overlap.
    A list request misses the cache and reads the empty table (lines
    136-149); while it is suspended a create request runs from its first
    line to its 201; the list request then resumes with the cache fill of
    line 151 and writes the listing it read.  The next list request is
    answered from the cache, without the row. *)
Example overlapping_requests_leave_stale_listing :
  let env := calm 0 1700000000 in
  let list_reads :=
    (cache_lookup sample_parse env;;
     log "Fetching messages from MySQL";;
     mysql_select_all env) in
  let list_resumes rows :=
    (redis_setEx env REDIS_MESSAGES_KEY 3600 (sample_stringify rows);;
     log "Messages cached in Redis";;
     ret (res_json (RowsBody rows))) in
  exists w1 w2 w3,
    list_reads (fresh true (Some true)) = (Normal [], w1) /\
    post_api_messages hello_body env w1 =
      (Normal (mkResponse 201
                 (RowBody (Some (mkMessage 1 (js "hello") 1700000000)))),
       w2) /\
    list_resumes [] w2 = (Normal (res_json (RowsBody [])), w3) /\
    messages w3 = [mkMessage 1 (js "hello") 1700000000] /\
    fst (get_api_messages sample_parse sample_stringify env w3) =
      Normal (res_json (JsonBody (JArr []))).
Proof.
  do 3 eexists.
  split; [reflexivity|].
  split; [reflexivity|].
  split; [reflexivity|].
  split; reflexivity.
Qed.


(** ** Failures of the cache and of the store *)

Section Failures.

Variable JSON_parse : jsstring -> option Json.
Variable JSON_stringify : list Message -> jsstring.

#[local] Abbreviation get_messages :=
  (get_api_messages JSON_parse JSON_stringify).
#[local] Abbreviation handle_request := (handle JSON_parse JSON_stringify).

(** C1, as amended.  With a client that is undefined or not open, no request
    issues a Redis command or changes a Redis key, and its result does not
    depend on how Redis would have answered nor on the Redis clock.  With an
    open client, a rejected [get], [setEx] or [del] is not swallowed: it
    reaches the [catch] block of the handler, which records it on the console
    and answers 500; after a rejected [del] the inserted row stays in the
    table. *)
Theorem cache_trouble_outcome env w :
  (client_open w = false ->
   forall rq env',
     same_store_answers env env' ->
     handle_request rq env' w = handle_request rq env w /\
     redis (snd (handle_request rq env w)) = redis w /\
     existsb redis_event (issued w (snd (handle_request rq env w))) = false) /\
  (client_open w = true ->
   forall e,
     get_rejects env = Some e ->
     get_messages env w =
       (Normal (mkResponse 500 (ErrorBody "Failed to retrieve messages")),
        noting w [redis_GET REDIS_MESSAGES_KEY;
                  console_error "Error fetching messages:" e])) /\
  (client_open w = true ->
   get_rejects env = None ->
   cache_miss env w ->
   dbPool w = true ->
   select_all_rejects env = None ->
   forall e,
     setEx_rejects env = Some e ->
     get_messages env w =
       (Normal (mkResponse 500 (ErrorBody "Failed to retrieve messages")),
        noting w [redis_GET REDIS_MESSAGES_KEY;
                  console_log "Fetching messages from MySQL";
                  mysql_SELECT_all;
                  redis_SETEX REDIS_MESSAGES_KEY 3600
                    (JSON_stringify (order_by_created_at_desc (messages w)));
                  console_error "Error fetching messages:" e])) /\
  (client_open w = true ->
   dbPool w = true ->
   insert_rejects env = None ->
   forall props s e,
     get_prop (js "content") props = Some (JStr s) ->
     trim s <> [] ->
     del_rejects env = Some e ->
     let r := post_api_messages (JObj props) env w in
     fst r = Normal (mkResponse 500 (ErrorBody "Failed to post message")) /\
     messages (snd r) =
       messages w ++
         [mkMessage (auto_increment w) (trim s) (CURRENT_TIMESTAMP env)] /\
     issued w (snd r) =
       [mysql_INSERT (trim s);
        redis_DEL REDIS_MESSAGES_KEY;
        console_error "Error posting message:" e]).
Proof.
  split; [|split; [|split]].
  - intros Hclosed rq env' Hsame. unfold issued.
    destruct env' as [get_r' setEx_r' del_r' select_all_r' insert_r'
                      select_id_r' redis_now' db_now'].
    open_world w env. destruct Hsame as (<- & <- & <- & <-).
    destruct client as [[|]|]; try discriminate;
      destruct rq as [|req_body]; run;
      repeat (case_match; run; simplify_eq);
      tidy_journal; rewrite ?drop_app_length, ?drop_all;
      (split; [reflexivity | split; reflexivity]).
  - intros Hopen e Hget. open_world w env. subst.
    destruct client as [[|]|]; try discriminate.
    run. tidy_journal. reflexivity.
  - intros Hopen Hget Hmiss Hpool Hselect e HsetEx. open_world w env. subst.
    destruct client as [[|]|]; try discriminate.
    run. destruct Hmiss as [-> | ->]; run; tidy_journal; reflexivity.
  - intros Hopen Hpool Hinsert props s e Hcontent Htrim Hdel r. subst r.
    assert (Hfilled : is_empty (trim s) = false) by (apply is_empty_false, Htrim).
    assert (Htruthy : truthy (Some (JStr s)) = true).
    { destruct s; [destruct Htrim; reflexivity | reflexivity]. }
    unfold issued. open_world w env. subst.
    destruct client as [[|]|]; try discriminate.
    run. rewrite Hcontent, Htruthy. run. rewrite Hfilled. run. tidy_journal.
    split; [reflexivity | split; [reflexivity | apply drop_app_length]].
Qed.


End Failures.

(** C1, as stated, fails: on the same world, the list request that is
    answered 200 when Redis behaves is answered 500 when the [get] rejects,
    and the create request that is answered 201 is answered 500 when the
    [del] rejects, with the row already inserted. *)
Lemma cache_failure_changes_outcome :
  client_open (fresh true (Some true)) = true /\
  fst (get_api_messages sample_parse sample_stringify (calm 0 1700000000)
                        (fresh true (Some true))) =
    Normal (mkResponse 200 (RowsBody [])) /\
  fst (get_api_messages sample_parse sample_stringify redis_failing
                        (fresh true (Some true))) =
    Normal (mkResponse 500 (ErrorBody "Failed to retrieve messages")) /\
  fst (post_api_messages hello_body (calm 0 1700000000)
                         (fresh true (Some true))) =
    Normal (mkResponse 201 (RowBody (Some (mkMessage 1 (js "hello") 1700000000)))) /\
  fst (post_api_messages hello_body redis_failing (fresh true (Some true))) =
    Normal (mkResponse 500 (ErrorBody "Failed to post message")) /\
  messages (snd (post_api_messages hello_body redis_failing
                                   (fresh true (Some true)))) =
    [mkMessage 1 (js "hello") 1700000000].
Proof.
  split; [reflexivity|].
  split; [reflexivity|].
  split; [reflexivity|].
  split; [reflexivity|].
  split; reflexivity.
Qed.

Lemma cache_trouble_outcome_witness :
  handle sample_parse sample_stringify GET_api_messages redis_failing
         (fresh true None) =
    handle sample_parse sample_stringify GET_api_messages (calm 0 1700000000)
           (fresh true None) /\
  get_api_messages sample_parse sample_stringify redis_failing
                   (fresh true (Some true)) =
    (Normal (mkResponse 500 (ErrorBody "Failed to retrieve messages")),
     noting (fresh true (Some true))
            [redis_GET REDIS_MESSAGES_KEY;
             console_error "Error fetching messages:" OperationFailed]).
Proof.
  split.
  - destruct (cache_trouble_outcome sample_parse sample_stringify
                (calm 0 1700000000) (fresh true None)) as [Hclosed _].
    destruct (Hclosed eq_refl GET_api_messages redis_failing) as [Hsame _].
    + repeat split.
    + exact Hsame.
  - destruct (cache_trouble_outcome sample_parse sample_stringify
                redis_failing (fresh true (Some true))) as (_ & Hget & _).
    apply (Hget eq_refl OperationFailed eq_refl).
Defined.



(** * Further properties of the handlers *)

Lemma live_delete now store key : live now (delete key store) key = None.
Proof. unfold live. rewrite lookup_delete_eq. reflexivity. Qed.


Section Outcomes.

Variable JSON_parse : jsstring -> option Json.
Variable JSON_stringify : list Message -> jsstring.

#[local] Abbreviation get_messages :=
  (get_api_messages JSON_parse JSON_stringify).
#[local] Abbreviation handle_request := (handle JSON_parse JSON_stringify).
#[local] Abbreviation serve_requests := (serve JSON_parse JSON_stringify).

(** X1. Nothing escapes the [try] block of the list handler: however each
    of its awaited calls settles, by resolving or by rejecting, and whatever
    [JSON.parse] does, the handler ends by sending a response, which is 200,
    or 500 with [{error: "Failed to retrieve messages"}], or 503 with
    [{error: "Database service not available."}]; it never ends with an
    uncaught exception.  It never changes the table.  (A request one of
    whose calls never settles is not covered.) *)
Theorem list_always_answers env w :
  exists r,
    fst (get_api_messages JSON_parse JSON_stringify env w) = Normal r /\
    (status r = 200 \/
     r = mkResponse 500 (ErrorBody "Failed to retrieve messages") \/
     r = mkResponse 503 (ErrorBody "Database service not available.")) /\
    messages (snd (get_api_messages JSON_parse JSON_stringify env w)) =
      messages w /\
    auto_increment (snd (get_api_messages JSON_parse JSON_stringify env w)) =
      auto_increment w.
Proof.
  destruct (get_keeps_table JSON_parse JSON_stringify env w) as [-> ->].
  open_world w env. run.
  repeat (case_match; run; simplify_eq);
    eexists; (split; [reflexivity|]); cbn [status]; auto.
Qed.

(** X2. The create handler ends in one of five ways.  It throws, uncaught,
    only a TypeError, only before it touched anything, and only when the
    body is [null] or its content is truthy and not a string.  Otherwise it
    sends 400, 503, 500 or 201, the first three with the error body of the
    source. *)
Theorem create_outcomes req_body env w :
  (post_api_messages req_body env w = (Throw TypeError, w) /\
   (req_body = JNull \/
    exists props v,
      req_body = JObj props /\
      get_prop (js "content") props = Some v /\
      truthy (Some v) = true /\
      forall s, v <> JStr s)) \/
  (exists r,
     fst (post_api_messages req_body env w) = Normal r /\
     (r = mkResponse 400 (ErrorBody "Message content cannot be empty") \/
      r = mkResponse 503 (ErrorBody "Database service not available.") \/
      r = mkResponse 500 (ErrorBody "Failed to post message") \/
      exists row, r = mkResponse 201 (RowBody row))).
Proof.
  open_world w env. run.
  repeat (case_match; run; simplify_eq);
    try (right; eexists; split; [reflexivity|]; eauto 6; fail).
  all: left; split; [reflexivity|]; eauto 10.
  all: right; do 2 eexists; split; [reflexivity|];
    split; [eassumption|]; split; [reflexivity | discriminate].
Qed.

Lemma handle_appends rq env w :
  exists added,
    messages (snd (handle_request rq env w)) = messages w ++ added.
Proof.
  destruct rq as [|req_body]; cbn [handle].
  - exists []. rewrite app_nil_r.
    apply (get_keeps_table JSON_parse JSON_stringify).
  - destruct (post_table req_body env w) as [[-> _] | (s & _ & -> & _)].
    + exists []. symmetry. apply app_nil_r.
    + eexists. reflexivity.
Qed.

(** X3. The table only grows: after any sequence of requests, under any
    behaviour of MySQL and Redis, the rows that were there are still there,
    unchanged and in the same order, followed by the new ones. *)
Theorem table_append_only rqs w :
  exists added,
    messages (serve JSON_parse JSON_stringify rqs w) = messages w ++ added.
Proof.
  revert w. induction rqs as [|[rq env] rqs IH]; intros w; cbn [serve].
  - exists []. symmetry. apply app_nil_r.
  - destruct (IH (snd (handle_request rq env w))) as [later ->].
    destruct (handle_appends rq env w) as [added ->].
    exists (added ++ later). symmetry. apply app_assoc.
Qed.

Lemma handle_keeps_distinct rq env w :
  ids_below w /\ NoDup (map id (messages w)) ->
  ids_below (snd (handle_request rq env w)) /\
  NoDup (map id (messages (snd (handle_request rq env w)))).
Proof.
  unfold ids_below. intros [Hbelow Hdistinct].
  destruct rq as [|req_body]; cbn [handle].
  - destruct (get_keeps_table JSON_parse JSON_stringify env w) as [-> ->].
    auto.
  - destruct (post_table req_body env w) as [[-> ->] | (s & _ & -> & ->)];
      [auto|].
    split.
    + apply Forall_app. split.
      * eapply Forall_impl; [exact Hbelow|]. cbv beta. intros m Hm. lia.
      * constructor; [cbn [id]; lia | constructor].
    + rewrite map_app. cbn [map id]. apply NoDup_app.
      split; [exact Hdistinct|]. split; [|apply NoDup_singleton].
      intros x Hx Hx'. apply list_elem_of_singleton in Hx'. subst x.
      apply list_elem_of_fmap in Hx as (m & Hm & Hin).
      rewrite Forall_forall in Hbelow. specialize (Hbelow m Hin). lia.
Qed.

(** X4. On a server started on an empty table, after any sequence of
    requests the ids in the table are pairwise distinct and all below the
    AUTO_INCREMENT counter, so the re-read by id of a create request finds
    the row it has just inserted and no other. *)
Theorem ids_stay_distinct rqs pool client :
  ids_below (serve_requests rqs (fresh pool client)) /\
  NoDup (map id (messages (serve_requests rqs (fresh pool client)))).
Proof.
  assert (Hall : forall w,
             ids_below w /\ NoDup (map id (messages w)) ->
             ids_below (serve_requests rqs w) /\
             NoDup (map id (messages (serve_requests rqs w)))).
  { induction rqs as [|[rq env] rqs IH]; intros w Hw; cbn [serve].
    - exact Hw.
    - apply IH, handle_keeps_distinct, Hw. }
  apply Hall. split; [constructor | apply NoDup_nil_2].
Qed.

(** X5. A list request that is handled in the very world a create request
    left, no other request running in between or alongside: once the create
    request has inserted its row and, with an open client, deleted the cache
    key, that list request, none of whose calls is rejected, reads the table
    and its listing holds the new row, whatever the cache held before the
    create request and whether or not its re-read succeeded. *)
Theorem listing_shows_new_message props s env1 env2 w :
  get_prop (js "content") props = Some (JStr s) ->
  trim s <> [] ->
  dbPool w = true ->
  insert_rejects env1 = None ->
  (client_open w = true -> del_rejects env1 = None) ->
  select_all_rejects env2 = None ->
  (client_open w = true ->
   get_rejects env2 = None /\ setEx_rejects env2 = None) ->
  let row := mkMessage (auto_increment w) (trim s) (CURRENT_TIMESTAMP env1) in
  let w1 := snd (post_api_messages (JObj props) env1 w) in
  exists rows,
    fst (get_messages env2 w1) = Normal (res_json (RowsBody rows)) /\
    In row rows /\
    Permutation rows (messages w ++ [row]).
Proof.
  intros Hcontent Htrim Hpool Hinsert Hdel Hall Hcache row w1.
  subst row w1.
  assert (Hfilled : is_empty (trim s) = false) by (apply is_empty_false, Htrim).
  assert (Htruthy : truthy (Some (JStr s)) = true).
  { destruct s; [destruct Htrim; reflexivity | reflexivity]. }
  exists (order_by_created_at_desc
            (messages w ++
               [mkMessage (auto_increment w) (trim s) (CURRENT_TIMESTAMP env1)])).
  split; [|split; [|apply order_by_perm]].
  2:{ apply (Permutation_in _ (Permutation_sym (order_by_perm _))).
      apply in_or_app. right. left. reflexivity. }
  destruct env2 as [get_r2 setEx_r2 del_r2 select_all_r2 insert_r2 select_id_r2
                    redis_now2 db_now2].
  open_world w env1. subst.
  run. rewrite Hcontent, Htruthy. run. rewrite Hfilled.
  destruct client as [[|]|]; run;
    try rewrite (Hdel eq_refl); try destruct (Hcache eq_refl) as [-> ->];
    destruct select_id_r; run; rewrite ?live_delete; reflexivity.
Qed.


End Outcomes.

Lemma listing_shows_new_message_witness :
  exists rows,
    fst (get_api_messages sample_parse sample_stringify (calm 1 0)
           (snd (post_api_messages hello_body (calm 0 1700000000) warm_world))) =
      Normal (res_json (RowsBody rows)) /\
    In (mkMessage 1 (js "hello") 1700000000) rows /\
    Permutation rows [mkMessage 1 (js "hello") 1700000000].
Proof.
  assert (Hfilled : trim (js "  hello ") <> []) by (cbv; discriminate).
  exact (listing_shows_new_message sample_parse sample_stringify
           [(js "content", JStr (js "  hello "))] (js "  hello ")
           (calm 0 1700000000) (calm 1 0) warm_world
           eq_refl Hfilled eq_refl eq_refl (fun _ => eq_refl) eq_refl
           (fun _ => conj eq_refl eq_refl)).
Defined.


(** * Starting the server *)

(** [initializeMySQL] returns with the pool set and the table in place, or
    exits with code 1; it changes neither the variables nor [listening]. *)
Lemma initializeMySQL_cases env h :
  (mysql_ok env h /\
   exists h',
     initializeMySQL env h = (Returned tt, h') /\
     dbPool (world h') = true /\
     database_exists h' = true /\
     table_exists h' = true /\
     process_env h' = process_env h /\
     listening h' = listening h) \/
  (~ mysql_ok env h /\
   exists h',
     initializeMySQL env h = (Exited 1, h') /\
     process_env h' = process_env h /\
     listening h' = listening h).
Proof.
  open_host h env. boot.
  destruct (unset (vars !! js "DB_HOST")), (unset (vars !! js "DB_USER")),
    (unset (vars !! js "DB_PASSWORD")), (unset (vars !! js "DB_NAME"));
    cbn [orb]; boot;
    try (right; split;
         [intros ([? [? [? ?]]] & _); discriminate
         | eexists; repeat split; reflexivity]).
  destruct createConnection_r, create_database_r, end_r, createPool_r,
    create_table_r, end_again_r, table; boot;
    first [ left; split; [repeat split; reflexivity|];
            eexists; repeat split; reflexivity
          | right; split;
            [intros (_ & ? & ? & ? & ? & ?); discriminate
            | eexists; repeat split; reflexivity] ].
Qed.

(** [initializeRedis] returns, or throws what [createClient] threw; it
    leaves the pool, the table, the variables and [listening] alone. *)
Lemma initializeRedis_cases env h :
  (redis_ok env h /\
   exists h',
     initializeRedis env h = (Returned tt, h') /\
     dbPool (world h') = dbPool (world h) /\
     messages (world h') = messages (world h) /\
     auto_increment (world h') = auto_increment (world h) /\
     redis (world h') = redis (world h) /\
     database_exists h' = database_exists h /\
     table_exists h' = table_exists h /\
     process_env h' = process_env h /\
     listening h' = listening h) \/
  (~ redis_ok env h /\
   exists e h',
     initializeRedis env h = (Thrown e, h') /\
     createClient_throws env = Some e /\
     listening h' = listening h).
Proof.
  open_host h env. boot.
  destruct (unset (vars !! js "REDIS_HOST")), (unset (vars !! js "REDIS_PORT"));
    cbn [orb]; boot;
    try (left; split; [intros [? ?]; discriminate|];
         eexists; repeat split; reflexivity).
  destruct createClient_r as [e0|]; boot.
  - right. split; [intros H; specialize (H (conj eq_refl eq_refl)); discriminate|].
    do 2 eexists. repeat split; reflexivity.
  - left. split; [intros _; reflexivity|].
    destruct connect_r; boot; eexists; repeat split; reflexivity.
Qed.

(** X7. When one of DB_HOST, DB_USER, DB_PASSWORD and DB_NAME is missing or
    empty, [initializeMySQL] prints one error line and exits with code 1
    before any call to MySQL: nothing else on the host changes. *)
Theorem initializeMySQL_needs_configuration env h :
  unset (process_env h !! js "DB_HOST") = true \/
  unset (process_env h !! js "DB_USER") = true \/
  unset (process_env h !! js "DB_PASSWORD") = true \/
  unset (process_env h !! js "DB_NAME") = true ->
  initializeMySQL env h =
    (Exited 1,
     mkHost (process_env h) (database_exists h) (table_exists h) (world h)
            (initialConnection h) (listening h)
            (boot_journal h ++
               [console level_error
                  (js "Missing critical MySQL environment variables (DB_HOST, DB_USER, DB_PASSWORD, DB_NAME).")
                  None])).
Proof.
  intros Hunset. open_host h env. boot.
  destruct Hunset as [-> | [-> | [-> | ->]]];
    rewrite ?orb_true_r; reflexivity.
Qed.

(** X8. [initializeMySQL] never throws and never returns half-way: it
    returns, with [dbPool] set and the database and the table in place,
    exactly when the four variables are set and none of its five calls
    fails; in every other case the process exits with code 1. *)
Theorem initializeMySQL_ready_or_exit env h :
  let r := initializeMySQL env h in
  (fst r = Returned tt \/ fst r = Exited 1) /\
  (fst r = Returned tt <->
   mysql_configured h /\
   createConnection_rejects env = None /\
   create_database_rejects env = None /\
   end_rejects env = None /\
   createPool_throws env = None /\
   create_table_rejects env = None) /\
  (fst r = Returned tt ->
   dbPool (world (snd r)) = true /\
   database_exists (snd r) = true /\
   table_exists (snd r) = true).
Proof.
  intros r. subst r. open_host h env. boot.
  destruct (unset (vars !! js "DB_HOST")), (unset (vars !! js "DB_USER")),
    (unset (vars !! js "DB_PASSWORD")), (unset (vars !! js "DB_NAME"));
    cbn [orb]; boot;
    try (split; [right; reflexivity | split; [split; [discriminate | intros ([? [? [? ?]]] & _); discriminate] | discriminate]]).
  destruct createConnection_r, create_database_r, end_r, createPool_r,
    create_table_r, end_again_r, table; boot;
    (split; [auto | split; [split; [try discriminate; auto 10 | try (intros (_ & ? & ? & ? & ? & ?); discriminate); auto] | try discriminate; auto]]).
Qed.

(** X9. [initializeMySQL] never loses a message: when the table exists
    its rows and its AUTO_INCREMENT counter are the same afterwards,
    whether the routine returns or exits; a table it creates is empty and
    numbers from 1.  It touches neither the Redis keys nor [redisClient]. *)
Theorem initializeMySQL_keeps_rows env h :
  let h' := snd (initializeMySQL env h) in
  redis (world h') = redis (world h) /\
  redisClient (world h') = redisClient (world h) /\
  (table_exists h = true ->
   table_exists h' = true /\
   messages (world h') = messages (world h) /\
   auto_increment (world h') = auto_increment (world h)) /\
  (table_exists h = false ->
   table_exists h' = true ->
   messages (world h') = [] /\ auto_increment (world h') = 1).
Proof.
  intros h'. subst h'. open_host h env. boot.
  destruct (unset (vars !! js "DB_HOST")), (unset (vars !! js "DB_USER")),
    (unset (vars !! js "DB_PASSWORD")), (unset (vars !! js "DB_NAME"));
    cbn [orb]; boot; try (repeat split; congruence).
  destruct createConnection_r, create_database_r, end_r, createPool_r,
    create_table_r, end_again_r, table; boot;
    repeat split; congruence.
Qed.

(** X10. [initializeRedis] never exits the process, and throws only what
    [createClient] throws.  Without REDIS_HOST or REDIS_PORT it prints one
    warning and leaves [redisClient] undefined.  Otherwise it creates the
    client with the URL built from the variables and calls [connect]; a
    rejected [connect] is caught, so the routine returns all the same.  It
    never touches the pool, the table or the Redis keys. *)
Theorem initializeRedis_outcome env h :
  let r := initializeRedis env h in
  (forall code, fst r <> Exited code) /\
  (forall e,
     fst r = Thrown e <->
     redis_configured h /\ createClient_throws env = Some e) /\
  (~ redis_configured h ->
   r = (Returned tt,
        mkHost (process_env h) (database_exists h) (table_exists h) (world h)
               (initialConnection h) (listening h)
               (boot_journal h ++
                  [console level_warn
                     (js "Missing REDIS_HOST or REDIS_PORT. Redis caching will be disabled.")
                     None]))) /\
  (redis_configured h ->
   createClient_throws env = None ->
   fst r = Returned tt /\
   redisClient (world (snd r)) =
     Some (match connect_rejects env with
           | None => true
           | Some _ => open_after_failed_connect env
           end) /\
   In (redis_createClient
         (redis_url (process_env h !! js "REDIS_HOST")
                    (process_env h !! js "REDIS_PORT")
                    (process_env h !! js "REDIS_PASSWORD")))
      (boot_journal (snd r))) /\
  dbPool (world (snd r)) = dbPool (world h) /\
  messages (world (snd r)) = messages (world h) /\
  redis (world (snd r)) = redis (world h) /\
  listening (snd r) = listening h.
Proof.
  intros r. subst r. open_host h env. boot.
  destruct (unset (vars !! js "REDIS_HOST")), (unset (vars !! js "REDIS_PORT"));
    cbn [orb]; boot;
    try (split; [discriminate|];
         split; [intros err; split; [discriminate | intros [[? ?] _]; discriminate]|];
         split; [reflexivity|];
         split; [intros [? ?]; discriminate|]; repeat split; reflexivity).
  destruct createClient_r as [e0|]; boot.
  - split; [discriminate|].
    split; [intros err; split; [intros [= ->]; auto | intros [_ [= ->]]; reflexivity]|].
    split; [intros H; destruct H; auto|].
    split; [discriminate|]. repeat split; reflexivity.
  - destruct connect_r; boot;
      (split; [discriminate|]);
      (split; [intros err; split; [discriminate | intros [_ ?]; discriminate]|]);
      (split; [intros H; destruct H; auto|]);
      (split; [intros _ _; split; [reflexivity | split; [reflexivity|]];
               rewrite !in_app_iff; cbn [In]; auto 10|]);
      repeat split; reflexivity.
Qed.

Lemma redis_ok_same_env env h h' :
  process_env h' = process_env h -> redis_ok env h' <-> redis_ok env h.
Proof. unfold redis_ok, redis_configured. intros ->. reflexivity. Qed.

(** [startServer] reaches [app.listen] only through an [initializeMySQL]
    that returned. *)
Lemma startServer_cases env h :
  listening h = false ->
  let r := startServer env h in
  (listening (snd r) = true <->
   mysql_ok env h /\ redis_ok env h /\ listen_fails env = None) /\
  (listening (snd r) = true ->
   fst r = Returned tt /\
   dbPool (world (snd r)) = true /\
   table_exists (snd r) = true).
Proof.
  intros Hoff r. subst r. unfold startServer, and_then.
  destruct (initializeMySQL_cases env h)
    as [[Hmysql (h1 & -> & Hpool & _ & Htable & Henv1 & Hl1)]
       | [Hmysql (h1 & -> & _ & Hl1)]].
  2:{ cbn [snd fst]. rewrite Hl1, Hoff. split; [|discriminate].
      split; [discriminate | intros [? _]; contradiction]. }
  pose proof (redis_ok_same_env env h h1 Henv1) as Hsame.
  destruct (initializeRedis_cases env h1)
    as [[Hredis (h2 & -> & Hpool2 & _ & _ & _ & _ & Htable2 & _ & Hl2)]
       | [Hredis (e & h2 & -> & _ & Hl2)]].
  2:{ cbn [snd fst]. rewrite Hl2, Hl1, Hoff. split; [|discriminate].
      split; [discriminate|]. intros (_ & Hr & _). exfalso. apply Hredis, Hsame, Hr. }
  apply Hsame in Hredis.
  destruct h2 as [vars2 database2 table2 [pool2 rows2 next2 client2 keys2 past2]
                  connection2 listens2 printed2].
  cbn in Hl2, Hpool2, Htable2.
  rewrite Hl1, Hoff in Hl2. rewrite Hpool in Hpool2. rewrite Htable in Htable2.
  subst.
  destruct env as [createConnection_r create_database_r end_r createPool_r
                   create_table_r end_again_r createClient_r connect_r
                   open_after [e|]];
    boot.
  - split; [|discriminate].
    split; [discriminate | intros (_ & _ & ?); discriminate].
  - split; [|intros _; repeat split].
    split; [|reflexivity].
    intros _. split; [exact Hmysql | split; [exact Hredis | reflexivity]].
Qed.

(** X11. For a start-up in which [client.connect()] settles: a process
    that was not listening listens after [startServer] exactly when
    [initializeMySQL] had nothing to stop it, [createClient] did not throw,
    and [listen] did not fail.  A [connect()] that rejects is caught at line
    124 and does not keep the server from listening; and a listening server
    has its pool and its table.  (A [connect()] that stays pending is not
    covered: line 198 then never returns.) *)
Theorem startServer_listens env h :
  listening h = false ->
  (listening (snd (startServer env h)) = true <->
   mysql_ok env h /\ redis_ok env h /\ listen_fails env = None) /\
  (listening (snd (startServer env h)) = true ->
   dbPool (world (snd (startServer env h))) = true /\
   table_exists (snd (startServer env h)) = true).
Proof.
  intros Hoff. destruct (startServer_cases env h Hoff) as [Hiff Hready].
  split; [exact Hiff|].
  intros Hlistening. destruct (Hready Hlistening) as (_ & Hpool & Htable).
  split; assumption.
Qed.

(** X12. A server that [startServer] brought to listen never answers 503:
    the guard on [dbPool] of the two handlers cannot fire, whatever requests
    came before. *)
Theorem started_server_never_answers_503
        JSON_parse JSON_stringify env h rqs rq request_env r :
  listening h = false ->
  listening (snd (startServer env h)) = true ->
  fst (handle JSON_parse JSON_stringify rq request_env
         (serve JSON_parse JSON_stringify rqs
                (world (snd (startServer env h))))) = Normal r ->
  status r <> 503.
Proof.
  intros Hoff Hlistening.
  destruct (startServer_cases env h Hoff) as [_ Hready].
  destruct (Hready Hlistening) as (_ & Hpool & _).
  apply pool_set_no_503.
  destruct (serve_keeps_handles JSON_parse JSON_stringify rqs
              (world (snd (startServer env h)))) as [-> _].
  exact Hpool.
Qed.

Lemma initializeMySQL_needs_configuration_witness :
  fst (initializeMySQL quiet_boot
         (powered_off (delete (js "DB_PASSWORD") configuration)
                      false false [] 1 ∅)) = Exited 1 /\
  length (boot_journal
            (snd (initializeMySQL quiet_boot
                    (powered_off (delete (js "DB_PASSWORD") configuration)
                                 false false [] 1 ∅)))) = 1%nat.
Proof.
  rewrite (initializeMySQL_needs_configuration quiet_boot
             (powered_off (delete (js "DB_PASSWORD") configuration)
                          false false [] 1 ∅)).
  - split; reflexivity.
  - right. right. left. reflexivity.
Defined.

Lemma startServer_listens_witness :
  listening (snd (startServer connect_rejected_boot new_machine)) = true /\
  dbPool (world (snd (startServer connect_rejected_boot new_machine))) = true /\
  redisClient (world (snd (startServer connect_rejected_boot new_machine))) =
    Some false.
Proof.
  destruct (startServer_listens connect_rejected_boot new_machine eq_refl)
    as [Hiff Hready].
  assert (Hlistening :
            listening (snd (startServer connect_rejected_boot new_machine)) =
            true).
  { apply Hiff. repeat split; reflexivity. }
  destruct (Hready Hlistening) as [Hpool _].
  split; [exact Hlistening | split; [exact Hpool | reflexivity]].
Defined.

Lemma started_server_never_answers_503_witness :
  fst (handle sample_parse sample_stringify GET_api_messages mysql_down
         (serve sample_parse sample_stringify three_posts
                (world (snd (startServer quiet_boot new_machine))))) =
    Normal (mkResponse 500 (ErrorBody "Failed to retrieve messages")) /\
  status (mkResponse 500 (ErrorBody "Failed to retrieve messages")) <> 503.
Proof.
  split; [reflexivity|].
  apply (started_server_never_answers_503 sample_parse sample_stringify
           quiet_boot new_machine three_posts GET_api_messages mysql_down);
    reflexivity.
Defined.

(** * The page script *)

Section Page.

Variable ToString : Json -> option jsstring.
Variable toLocaleString : Json -> option jsstring.

#[local] Abbreviation item := (message_item ToString toLocaleString).
#[local] Abbreviation display := (displayMessages ToString toLocaleString).
#[local] Abbreviation refresh := (fetchMessages ToString toLocaleString).
#[local] Abbreviation on_submit := (submit ToString toLocaleString).

(** Whatever the callback throws is a TypeError. *)
Lemma message_item_failure message failure :
  item message = inl failure -> failure = type_error.
Proof.
  unfold message_item, content_text, timestamp_text, converted, property.
  intros H. repeat (case_match; simplify_eq); reflexivity.
Qed.

(** [forEach] ends without a failure exactly when no call of the callback
    throws; it has then appended the items of the messages, in their
    order. *)
Lemma append_items_complete items children out :
  append_items ToString toLocaleString items children = (None, out) <->
  exists nodes,
    out = children ++ nodes /\
    Forall2 (fun message node => item message = inr node) items nodes.
Proof.
  revert children. induction items as [|message items IH]; intros children;
    cbn [append_items].
  - split.
    + intros [= <-]. exists []. rewrite app_nil_r.
      split; [reflexivity | constructor].
    + intros (nodes & -> & Hnodes). inversion Hnodes.
      rewrite app_nil_r. reflexivity.
  - destruct (item message) as [failure | node] eqn:Hitem.
    + split; [discriminate|].
      intros (nodes & _ & Hnodes). inversion Hnodes; congruence.
    + rewrite IH. split.
      * intros (nodes & -> & Hnodes). exists (node :: nodes).
        rewrite <- app_assoc. split; [reflexivity | constructor; assumption].
      * intros (nodes & -> & Hnodes).
        inversion Hnodes as [|? node' ? nodes' Hnode Hrest]; subst.
        assert (node' = node) by congruence. subst node'.
        exists nodes'. rewrite <- app_assoc. split; [reflexivity | assumption].
Qed.

(** [forEach] stops at the first item that throws. *)
Lemma append_items_throws items children :
  In JNull items ->
  exists children',
    append_items ToString toLocaleString items children =
      (Some type_error, children').
Proof.
  revert children. induction items as [|message items IH];
    intros children Hnull; [destruct Hnull|].
  cbn [append_items].
  destruct (item message) as [failure | node] eqn:Hitem.
  - apply message_item_failure in Hitem. subst failure.
    exists children. reflexivity.
  - destruct Hnull as [-> | Hnull]; [discriminate|].
    apply IH, Hnull.
Qed.

(** X13. For a non-empty array, [displayMessages] ends without throwing
    exactly when no call of the callback of [forEach] throws, and the
    container then holds exactly one item per message, in the order of the
    array, each built from its message alone.  The callback throws on a
    [null] entry and on a content or a timestamp that cannot be converted. *)
Theorem displayMessages_one_item_per_message items nodes :
  items <> [] ->
  (displayMessages ToString toLocaleString (Some (JArr items)) = (None, nodes)
   <->
   Forall2 (fun message node =>
              message_item ToString toLocaleString message = inr node)
           items nodes).
Proof.
  intros Hfilled. destruct items as [|message items]; [congruence|].
  change (displayMessages ToString toLocaleString
            (Some (JArr (message :: items))))
    with (append_items ToString toLocaleString (message :: items) []).
  rewrite append_items_complete. split.
  - intros (nodes' & -> & Hnodes). exact Hnodes.
  - intros Hnodes. exists nodes. split; [reflexivity | exact Hnodes].
Qed.

(** [fetchMessages] sends one GET and does not touch the text field. *)
Lemma fetchMessages_frame answer page :
  messageText (refresh answer page) = messageText page /\
  sent (refresh answer page) = sent page ++ [GET_api_messages].
Proof.
  unfold fetchMessages, fetch_failed, sent.
  destruct answer as [|status [messages|]]; cbn [negb];
    try destruct (ok status); cbn [negb];
    try destruct (display (Some messages)) as [[failure|] children];
    cbn [messageText messagesContainer happened render happen];
    rewrite ?omap_app; cbn [omap]; rewrite ?app_nil_r;
    split; reflexivity.
Qed.

(** X14. [fetchMessages] sends one GET, leaves the text field alone and
    never lets a failure out.  Afterwards the container holds the complete
    rendering of the list it received, and that only when the response was
    ok, its body was JSON and the rendering threw nothing; in every other
    case (no response, a status outside 200-299, a body that is not JSON, a
    rendering that throws) it holds the error paragraph and nothing else. *)
Theorem fetchMessages_shows_list_or_error answer page :
  let page' := refresh answer page in
  messageText page' = messageText page /\
  sent page' = sent page ++ [GET_api_messages] /\
  ((exists status messages,
      answer = HttpResponse status (Some messages) /\
      ok status = true /\
      display (Some messages) = (None, messagesContainer page')) \/
   (messagesContainer page' =
      paragraph "Error loading messages. Is the backend running?" /\
    (answer = NoResponse \/
     (exists status json, answer = HttpResponse status json /\ ok status = false) \/
     (exists status, answer = HttpResponse status None) \/
     (exists status messages failure children,
        answer = HttpResponse status (Some messages) /\
        display (Some messages) = (Some failure, children))))).
Proof.
  intros page'. subst page'. unfold fetchMessages, fetch_failed, sent.
  destruct answer as [|status [messages|]]; cbn [negb];
    try destruct (ok status) eqn:Hok; cbn [negb];
    try destruct (display (Some messages)) as [[failure|] children] eqn:Hshow;
    cbn [messageText messagesContainer happened render happen];
    rewrite ?omap_app; cbn [omap]; rewrite ?app_nil_r;
    (split; [reflexivity | split; [reflexivity|]]); eauto 12.
Qed.

(** X15. A [null] entry in the array makes the rendering throw; the items
    appended before it are discarded, and the page shows the error paragraph
    alone, with the TypeError on the console. *)
Theorem fetchMessages_null_item_shows_error status before after page :
  ok status = true ->
  Forall (fun message => message <> JNull) before ->
  refresh (HttpResponse status (Some (JArr (before ++ JNull :: after)))) page =
    mkPage (messageText page)
           (paragraph "Error loading messages. Is the backend running?")
           (happened page ++
              [fetch_GET;
               page_console_error "Failed to fetch messages:" type_error]).
Proof.
  intros Hok Hbefore. unfold fetchMessages. rewrite Hok. cbn [negb].
  unfold displayMessages.
  destruct (append_items_throws (before ++ JNull :: after) [])
    as (nodes & Happend).
  { apply in_or_app. right. left. reflexivity. }
  replace (negb (truthy (Some (JArr (before ++ JNull :: after)))) ||
           length_is_zero (JArr (before ++ JNull :: after))) with false
    by (destruct before; reflexivity).
  rewrite Happend. unfold fetch_failed, render, happen.
  cbn [messageText messagesContainer happened]. rewrite <- app_assoc.
  reflexivity.
Qed.

(** The requests of a submission whose text is not blank. *)
Lemma submit_sent posted listed page :
  trim (messageText page) <> [] ->
  sent (on_submit posted listed page) =
    sent page ++
      POST_api_messages (JObj [(js "content", JStr (trim (messageText page)))])
      :: (if accepted posted then [GET_api_messages] else []).
Proof.
  intros Hfilled. unfold submit.
  apply is_empty_false in Hfilled. rewrite Hfilled.
  destruct posted as [|status json]; cbn [accepted negb].
  - unfold sent, happen. cbn [happened]. rewrite !omap_app. cbn [omap].
    rewrite !app_nil_r. reflexivity.
  - destruct (ok status); cbn [negb].
    + match goal with
      | |- sent (fetchMessages _ _ _ ?p) = _ =>
          destruct (fetchMessages_frame listed p) as [_ ->]
      end.
      unfold sent, happen. cbn [happened]. rewrite omap_app. cbn [omap].
      rewrite <- app_assoc. reflexivity.
    + unfold sent, happen. cbn [happened]. rewrite !omap_app. cbn [omap].
      rewrite !app_nil_r. reflexivity.
Qed.

(** X16. Submitting a text that trims to the empty string sends no
    request: the only effect is the alert, and the text field and the list
    stay as they were. *)
Theorem submit_blank_sends_nothing posted listed page :
  trim (messageText page) = [] ->
  on_submit posted listed page =
    mkPage (messageText page) (messagesContainer page)
           (happened page ++ [alert "Please enter a message."]) /\
  sent (on_submit posted listed page) = sent page.
Proof.
  intros Hblank. unfold submit. rewrite Hblank. cbn [is_empty].
  split; [reflexivity|].
  unfold sent, happen. cbn [happened]. rewrite omap_app. cbn [omap].
  apply app_nil_r.
Qed.

(** X17. When the POST gets no response or a status outside 200-299, the
    text the user typed stays in the field, the list is left alone, no GET
    is sent, and the last thing that happens is the failure alert. *)
Theorem submit_failure_keeps_text posted listed page :
  trim (messageText page) <> [] ->
  posted = NoResponse \/
  (exists status json, posted = HttpResponse status json /\ ok status = false) ->
  let page' := on_submit posted listed page in
  messageText page' = messageText page /\
  messagesContainer page' = messagesContainer page /\
  sent page' =
    sent page ++
      [POST_api_messages (JObj [(js "content", JStr (trim (messageText page)))])] /\
  last (happened page') =
    Some (alert "Failed to post message. Check console for details.").
Proof.
  intros Hfilled Hposted page'. subst page'. unfold submit.
  apply is_empty_false in Hfilled. rewrite Hfilled.
  destruct Hposted as [-> | (status & json & -> & Hok)];
    try rewrite Hok; cbn [negb];
    unfold sent, happen; cbn [messageText messagesContainer happened];
    rewrite !omap_app, last_snoc; cbn [omap]; rewrite !app_nil_r;
    repeat split; reflexivity.
Qed.

(** X18. When the POST is answered with an ok status, the text field is
    emptied and the list is fetched again: the page sent the POST with the
    trimmed text, then one GET, and ends as [fetchMessages] leaves it. *)
Theorem submit_success_clears_and_refreshes status json listed page :
  trim (messageText page) <> [] ->
  ok status = true ->
  let page' := on_submit (HttpResponse status json) listed page in
  messageText page' = [] /\
  sent page' =
    sent page ++
      [POST_api_messages (JObj [(js "content", JStr (trim (messageText page)))]);
       GET_api_messages] /\
  page' =
    refresh listed
      (mkPage [] (messagesContainer page)
              (happened page ++
                 [fetch_POST
                    (JObj [(js "content", JStr (trim (messageText page)))])])).
Proof.
  intros Hfilled Hok page'. subst page'. unfold submit.
  apply is_empty_false in Hfilled. rewrite Hfilled, Hok. cbn [negb].
  unfold happen. cbn [messageText messagesContainer happened].
  destruct (fetchMessages_frame listed
              (mkPage [] (messagesContainer page)
                 (happened page ++
                    [fetch_POST
                       (JObj [(js "content", JStr (trim (messageText page)))])])))
    as (Htext & Hsent).
  rewrite Htext, Hsent.
  unfold sent at 1. cbn [happened messageText]. rewrite omap_app. cbn [omap].
  rewrite <- app_assoc. repeat split; reflexivity.
Qed.

Lemma get_prop_first key value rest :
  get_prop key ((key, value) :: rest) = Some value.
Proof. cbn [get_prop]. destruct (decide (key = key)); congruence. Qed.

(** X19. What the form sends always passes the validation of the create
    handler: for a text that is not blank the POST carries the trimmed text
    as a string, so the handler neither throws nor answers 400, in any world
    and under any behaviour of MySQL and Redis; and the row it inserts, if
    any, holds exactly the trimmed text, the second trim changing nothing. *)
Theorem form_post_passes_validation posted listed page env w :
  trim (messageText page) <> [] ->
  let request_body :=
    JObj [(js "content", JStr (trim (messageText page)))] in
  let r := post_api_messages request_body env w in
  In (POST_api_messages request_body) (sent (on_submit posted listed page)) /\
  (exists response, fst r = Normal response /\ status response <> 400) /\
  (messages (snd r) = messages w \/
   messages (snd r) =
     messages w ++
       [mkMessage (auto_increment w) (trim (messageText page))
                  (CURRENT_TIMESTAMP env)]).
Proof.
  intros Hfilled request_body r. subst request_body r. split.
  { rewrite (submit_sent posted listed page Hfilled).
    apply in_or_app. right. left. reflexivity. }
  assert (Hfilled' : is_empty (trim (messageText page)) = false)
    by (apply is_empty_false, Hfilled).
  assert (Htruthy :
            truthy (Some (JStr (trim (messageText page)))) = true)
    by (cbn [truthy]; rewrite Hfilled'; reflexivity).
  open_world w env. run.
  rewrite get_prop_first, Htruthy. run.
  rewrite trim_idempotent, Hfilled'.
  repeat (case_match; run; simplify_eq);
    (split; [eexists; split; [reflexivity | discriminate] | auto]).
Qed.

End Page.

Lemma displayMessages_one_item_per_message_witness :
  displayMessages sample_ToString sample_toLocaleString
    (Some (JArr [sample_row; JObj []])) =
    (None,
     [Element "div" ["message-item"%string]
        [Element "p" [] [TextNode (js "<b>hello</b>")];
         Element "small" [] [TextNode (js "2024-05-01T10:00:00.000Z")]];
      Element "div" ["message-item"%string]
        [Element "p" [] [];
         Element "small" [] [TextNode (js "Just now")]]]) /\
  ~ Forall2 (fun message node =>
               message_item sample_ToString sample_toLocaleString message =
                 inr node)
            [sample_row; opaque_row]
            [Element "div" [] []; Element "div" [] []].
Proof.
  split.
  - apply displayMessages_one_item_per_message; [discriminate|].
    repeat constructor.
  - intros Hnodes.
    apply (displayMessages_one_item_per_message sample_ToString
             sample_toLocaleString [sample_row; opaque_row]) in Hnodes;
      [discriminate Hnodes | discriminate].
Defined.

(** A row whose content cannot be converted makes the rendering throw: the
    row before it is discarded with it, and the page shows the error
    paragraph. *)
Example display_opaque_row :
  displayMessages sample_ToString sample_toLocaleString
    (Some (JArr [sample_row; opaque_row])) =
    (Some type_error,
     [Element "div" ["message-item"%string]
        [Element "p" [] [TextNode (js "<b>hello</b>")];
         Element "small" [] [TextNode (js "2024-05-01T10:00:00.000Z")]]]) /\
  messagesContainer
    (fetchMessages sample_ToString sample_toLocaleString
       (HttpResponse 200 (Some (JArr [sample_row; opaque_row])))
       (typed [])) =
    paragraph "Error loading messages. Is the backend running?".
Proof. split; reflexivity. Qed.

Lemma fetchMessages_null_item_shows_error_witness :
  messagesContainer
    (fetchMessages sample_ToString sample_toLocaleString
       (HttpResponse 200 (Some (JArr ([sample_row] ++ JNull :: [sample_row]))))
       (typed (js "draft"))) =
    paragraph "Error loading messages. Is the backend running?".
Proof.
  rewrite (fetchMessages_null_item_shows_error sample_ToString
             sample_toLocaleString 200 [sample_row] [sample_row]
             (typed (js "draft")) eq_refl).
  - reflexivity.
  - repeat constructor. discriminate.
Defined.

Lemma submit_blank_sends_nothing_witness :
  submit sample_ToString sample_toLocaleString NoResponse NoResponse
         (typed (js "   ")) =
    mkPage (js "   ") [] [alert "Please enter a message."].
Proof.
  destruct (submit_blank_sends_nothing sample_ToString sample_toLocaleString
              NoResponse NoResponse (typed (js "   ")) eq_refl) as [Hpage _].
  exact Hpage.
Defined.

Lemma submit_failure_keeps_text_witness :
  messageText
    (submit sample_ToString sample_toLocaleString
            (HttpResponse 500 None) NoResponse (typed (js "  hello "))) =
    js "  hello ".
Proof.
  assert (Hfilled : trim (messageText (typed (js "  hello "))) <> [])
    by (cbv; discriminate).
  destruct (submit_failure_keeps_text sample_ToString sample_toLocaleString
              (HttpResponse 500 None) NoResponse (typed (js "  hello "))
              Hfilled) as [Htext _].
  - right. exists 500, None. split; reflexivity.
  - exact Htext.
Defined.

Lemma submit_success_clears_and_refreshes_witness :
  messageText
    (submit sample_ToString sample_toLocaleString
            (HttpResponse 201 None) (HttpResponse 200 (Some (JArr [sample_row])))
            (typed (js "  hello "))) = [] /\
  sent (submit sample_ToString sample_toLocaleString
               (HttpResponse 201 None)
               (HttpResponse 200 (Some (JArr [sample_row])))
               (typed (js "  hello "))) =
    [POST_api_messages (JObj [(js "content", JStr (js "hello"))]);
     GET_api_messages].
Proof.
  assert (Hfilled : trim (messageText (typed (js "  hello "))) <> [])
    by (cbv; discriminate).
  destruct (submit_success_clears_and_refreshes sample_ToString
              sample_toLocaleString 201 None
              (HttpResponse 200 (Some (JArr [sample_row])))
              (typed (js "  hello ")) Hfilled eq_refl)
    as (Htext & Hsent & _).
  split; [exact Htext | exact Hsent].
Defined.

Lemma form_post_passes_validation_witness :
  In (POST_api_messages (JObj [(js "content", JStr (js "hello"))]))
     (sent (submit sample_ToString sample_toLocaleString
                   (HttpResponse 201 None) NoResponse (typed (js "  hello ")))) /\
  exists response,
    fst (post_api_messages (JObj [(js "content", JStr (js "hello"))])
                           (calm 0 1700000000) (fresh true (Some true))) =
      Normal response /\
    status response <> 400.
Proof.
  assert (Hfilled : trim (messageText (typed (js "  hello "))) <> [])
    by (cbv; discriminate).
  destruct (form_post_passes_validation sample_ToString sample_toLocaleString
              (HttpResponse 201 None) NoResponse (typed (js "  hello "))
              (calm 0 1700000000) (fresh true (Some true)) Hfilled)
    as (Hsent & Hanswer & _).
  split; [exact Hsent | exact Hanswer].
Defined.
